(** * Kubernetes to Avahi advertiser: a shallow embedding and its laws

    Source: [metallb-svc/avahi-advertiser/avahi_k8s_advertiser.py].

    The advertiser watches cluster services and keeps two artifacts in step
    with them: managed lines of the Avahi hosts file (LoadBalancer services)
    and one service-definition file per NodePort service.

    Modelling choices.
    - Text is [string] (8-bit characters); the Python methods [lower] and
      [isalnum] are modelled on ASCII.
    - The hosts file is its text content ([None] when the file is absent),
      as Python's text layer presents it, so that a line ends at a line
      feed; [readlines] splits after every line feed and keeps the
      terminator, as the Python method does, and [writelines] is plain
      concatenation.  A carriage return is an ordinary character here,
      whereas Python reads it as a line end: where a statement depends on
      text being read back as it was written, it carries [no_cr] or
      [plain_entry] as a hypothesis.  Likewise [split] knows the blanks of
      seven-bit text, and a statement about tokens carries [seven_bit].
    - The services directory is a finite map from file name to content.
    - Dictionaries whose iteration order matters (annotations, TXT records)
      are association lists updated in place; the two ownership maps and the
      two bookkeeping sets are [gmap] and [gset].
    - File-system calls are modelled on their successful path: the handlers
      that only log an I/O exception are not reached.
    - Logging, the reload command, sleeping and subscribing are recorded,
      in order, in a trace carried by the state. *)

From Stdlib Require Import ZArith Ascii String List Bool Lia DecimalString.
From stdpp Require Import gmap strings.
Import ListNotations.

Local Open Scope Z_scope.

(** ** Python text primitives *)

Definition LF : ascii := "010"%char.
Definition nl : string := String LF "".
Definition dquote : string := String "034"%char "".

(** [prefix.startswith] *)
Definition startswith (p s : string) : bool := String.prefix p s.

(** [sub in s] on text: [sub] occurs in [s] as a contiguous substring. *)
Fixpoint str_in (sub s : string) : bool :=
  String.prefix sub s ||
  match s with
  | EmptyString => false
  | String _ s' => str_in sub s'
  end.

(** [s[n:]] *)
Fixpoint slice_from (n : nat) (s : string) : string :=
  match n, s with
  | O, _ => s
  | S n', String _ s' => slice_from n' s'
  | S _, EmptyString => EmptyString
  end.

Definition char_between (lo hi c : ascii) : bool :=
  (nat_of_ascii lo <=? nat_of_ascii c)%nat && (nat_of_ascii c <=? nat_of_ascii hi)%nat.

Definition is_upper (c : ascii) : bool := char_between "A" "Z" c.
Definition is_lower (c : ascii) : bool := char_between "a" "z" c.
Definition is_digit (c : ascii) : bool := char_between "0" "9" c.

(** [c.isalnum()] *)
Definition isalnum (c : ascii) : bool := is_upper c || is_lower c || is_digit c.

Definition lower_char (c : ascii) : ascii :=
  if is_upper c then ascii_of_nat (nat_of_ascii c + 32) else c.

Fixpoint string_map (f : ascii -> ascii) (s : string) : string :=
  match s with
  | EmptyString => EmptyString
  | String c s' => String (f c) (string_map f s')
  end.

(** [s.lower()] *)
Definition lower (s : string) : string := string_map lower_char s.

(** [str(n)] for an integer *)
Definition str_of_int (n : Z) : string := NilZero.string_of_int (Z.to_int n).

(** [f"{x}"] for a value that may be [None] *)
Definition str_of_opt (o : option string) : string :=
  match o with
  | Some s => s
  | None => "None"
  end.

(** [sep.join(parts)] *)
Fixpoint join (sep : string) (parts : list string) : string :=
  match parts with
  | [] => ""
  | [p] => p
  | p :: rest => p +:+ sep +:+ join sep rest
  end.

(** [f.readlines()]: every line keeps its line feed; only the last line may
    lack one. *)
Fixpoint readlines (s : string) : list string :=
  match s with
  | EmptyString => []
  | String c rest =>
      if Ascii.eqb c LF then String c "" :: readlines rest
      else match readlines rest with
           | [] => [String c ""]
           | l :: ls => String c l :: ls
           end
  end.

(** [f.writelines(lines)] on a freshly truncated file *)
Fixpoint writelines (lines : list string) : string :=
  match lines with
  | [] => ""
  | l :: ls => l +:+ writelines ls
  end.

(** ** Dictionaries with insertion order *)

Definition dict : Type := list (string * string).

Fixpoint dict_get (d : dict) (k : string) : option string :=
  match d with
  | [] => None
  | (k', v) :: d' => if String.eqb k' k then Some v else dict_get d' k
  end.

(** [d.get(k, default)] *)
Definition dict_get_default (d : dict) (k dflt : string) : string :=
  match dict_get d k with
  | Some v => v
  | None => dflt
  end.

(** [d[k] = v] *)
Fixpoint dict_set (d : dict) (k v : string) : dict :=
  match d with
  | [] => [(k, v)]
  | (k', v') :: d' =>
      if String.eqb k' k then (k', v) :: d' else (k', v') :: dict_set d' k v
  end.

(** ** Configuration constants *)

Definition ANNOTATION_PREFIX : string := "avahi.local/".
Definition MANAGED_HOSTS_MARKER : string := "# Managed by k8s-avahi-advertiser".

(** ** The watched resource *)

(** The fields of a [V1Service] the advertiser reads.  [None] and the empty
    container are both falsy in every test the source makes, so an absent
    annotation dictionary, port list or ingress list is the empty list. *)
Record Service : Type := mkService {
  metadata_name : string;
  metadata_namespace : string;
  metadata_annotations : dict;
  spec_type : string;
  spec_ports : list (option Z);          (* node_port of each declared port *)
  status_ingress : list (option string)  (* ip of each load-balancer ingress *)
}.

(** ** Effects and state *)

Inductive message : Type :=
| MsgReloaded
| MsgReloadFailed (stderr : string)
| MsgReloadTimeout
| MsgReloadError
| MsgNoIP (key : string)
| MsgHostnameConflict (current fqdn existing : string)
| MsgCreatedA (fqdn ip key : string)
| MsgNoPorts (key : string)
| MsgNoNodePort (key : string)
| MsgServiceNameConflict (current advertise_name filename existing : string)
| MsgCreatedService (filename key : string)
| MsgRemovedA (fqdn key : string)
| MsgRemovedService (filename key : string)
| MsgSyncing
| MsgListFailed
| MsgWatchStart
| MsgWatchExpired
| MsgApiException (status : Z)
| MsgUnexpected.

Inductive effect : Type :=
| LogError (m : message)
| LogWarning (m : message)
| LogInfo (m : message)
| RunReload                (* systemctl reload avahi-daemon *)
| Sleep (seconds : Z)
| Subscribe.               (* w.stream(list_service_for_all_namespaces) *)

Record State : Type := mkState {
  hosts_file : option string;            (* content of AVAHI_HOSTS_FILE *)
  services_dir : gmap string string;     (* files of AVAHI_SERVICES_DIR *)
  managed_files : gset string;
  managed_hosts : gset string;
  needs_reload : bool;
  hostname_map : gmap string string;     (* fqdn -> "namespace/service" *)
  service_name_map : gmap string string; (* filename -> "namespace/service" *)
  trace : list effect
}.

Definition emit (e : effect) (st : State) : State :=
  mkState (hosts_file st) (services_dir st) (managed_files st) (managed_hosts st)
          (needs_reload st) (hostname_map st) (service_name_map st)
          (trace st ++ [e]).

Definition set_needs_reload (b : bool) (st : State) : State :=
  mkState (hosts_file st) (services_dir st) (managed_files st) (managed_hosts st)
          b (hostname_map st) (service_name_map st) (trace st).

(** ** [AvahiServiceFile] *)

Record AvahiServiceFile : Type := mkAvahiServiceFile {
  asf_name : string;
  asf_ip : string;
  asf_port : Z;
  asf_service_type : string;
  asf_txt_records : dict
}.

Definition txt_record_xml (kv : string * string) : string :=
  "    <txt-record>" +:+ fst kv +:+ "=" +:+ snd kv +:+ "</txt-record>".

Definition is_empty_string (s : string) : bool :=
  match s with
  | EmptyString => true
  | String _ _ => false
  end.

Definition to_xml (f : AvahiServiceFile) : string :=
  let txt_records_xml :=
    match asf_txt_records f with
    | [] => ""
    | _ :: _ => join nl (map txt_record_xml (asf_txt_records f))
    end in
  let xml :=
    "<?xml version=" +:+ dquote +:+ "1.0" +:+ dquote +:+ " standalone='no'?>" +:+ nl +:+
    "<!DOCTYPE service-group SYSTEM " +:+ dquote +:+ "avahi-service.dtd" +:+ dquote +:+ ">" +:+ nl +:+
    "<service-group>" +:+ nl +:+
    "  <name replace-wildcards=" +:+ dquote +:+ "yes" +:+ dquote +:+ ">" +:+ asf_name f +:+ "</name>" +:+ nl +:+
    "  <service>" +:+ nl +:+
    "    <type>" +:+ asf_service_type f +:+ "</type>" +:+ nl +:+
    "    <port>" +:+ str_of_int (asf_port f) +:+ "</port>" +:+ nl in
  let xml :=
    if is_empty_string txt_records_xml then xml
    else xml +:+ txt_records_xml +:+ nl in
  xml +:+ "  </service>" +:+ nl +:+ "</service-group>" +:+ nl.

(** The sanitising comprehension shared by [AvahiServiceFile.filename],
    [create_service_record] and [remove_service_record]. *)
Definition safe_char (c : ascii) : ascii :=
  if isalnum c || Ascii.eqb c "-" || Ascii.eqb c "_" then c else "-"%char.

Definition safe_name (advertise_name : string) : string :=
  string_map safe_char (lower advertise_name).

Definition service_filename (advertise_name : string) : string :=
  "k8s-" +:+ safe_name advertise_name +:+ ".service".

Definition filename (f : AvahiServiceFile) : string := service_filename (asf_name f).

(** ** [KubernetesAvahiAdvertiser] *)

Inductive reload_outcome : Type :=
| Completed (returncode : Z) (stderr : string)
| TimeoutExpired
| RunFailed.                   (* any other exception of [subprocess.run] *)

Definition reload_avahi_daemon (o : reload_outcome) (st : State) : State :=
  if negb (needs_reload st) then st
  else
    let st := emit RunReload st in
    match o with
    | Completed rc stderr =>
        if rc =? 0 then set_needs_reload false (emit (LogInfo MsgReloaded) st)
        else emit (LogError (MsgReloadFailed stderr)) st
    | TimeoutExpired => emit (LogError MsgReloadTimeout) st
    | RunFailed => emit (LogError MsgReloadError) st
    end.

Definition get_service_annotations (service : Service) : dict :=
  fold_left
    (fun annotations kv =>
       if startswith ANNOTATION_PREFIX (fst kv)
       then dict_set annotations
              (slice_from (String.length ANNOTATION_PREFIX) (fst kv)) (snd kv)
       else annotations)
    (metadata_annotations service) [].

(** Python's ASCII whitespace, as [str.split] with no argument sees it. *)
Definition is_space (c : ascii) : bool :=
  Ascii.eqb c " " || (9 <=? nat_of_ascii c)%nat && (nat_of_ascii c <=? 13)%nat
  || (28 <=? nat_of_ascii c)%nat && (nat_of_ascii c <=? 31)%nat.

Fixpoint split_go (cur : option string) (s : string) : list string :=
  match s with
  | EmptyString => match cur with Some w => [String.rev w] | None => [] end
  | String c s' =>
      if is_space c
      then match cur with
           | Some w => String.rev w :: split_go None s'
           | None => split_go None s'
           end
      else split_go (Some (String c (default "" cur))) s'
  end.

(** [line.split()] *)
Definition split (s : string) : list string := split_go None s.

(** [line.strip()] changes neither the marker test nor the tokens of
    [line.split()], and is left out. *)
Definition _load_managed_hosts (st : State) : State :=
  match hosts_file st with
  | None => st
  | Some content =>
      fold_left
        (fun st line =>
           if str_in MANAGED_HOSTS_MARKER line
           then match split line with
                | _ :: host :: _ :: _ =>
                    mkState (hosts_file st) (services_dir st) (managed_files st)
                            ({[host]} ∪ managed_hosts st) (needs_reload st)
                            (hostname_map st) (service_name_map st) (trace st)
                | _ => st
                end
           else st)
        (readlines content) st
  end.

Definition string_in_list (s : string) (l : list string) : bool :=
  existsb (String.eqb s) l.

Definition should_advertise (service : Service) : bool :=
  if negb (string_in_list (spec_type service) ["LoadBalancer"; "NodePort"]) then false
  else if String.eqb (spec_type service) "LoadBalancer"
          && match status_ingress service with [] => true | _ :: _ => false end
  then false
  else if match metadata_annotations service with [] => false | _ :: _ => true end
          && String.eqb
               (lower (dict_get_default (metadata_annotations service)
                         (ANNOTATION_PREFIX +:+ "enabled") "true"))
               "false"
  then false
  else true.

(** [f"{namespace}/{name}"] *)
Definition service_key (service : Service) : string :=
  metadata_namespace service +:+ "/" +:+ metadata_name service.

(** [annotations.get("name", name)] *)
Definition advertised_name (service : Service) : string :=
  dict_get_default (get_service_annotations service) "name" (metadata_name service).

(** The test of both pruning comprehensions:
    [MANAGED_HOSTS_MARKER in line and hostname in line]. *)
Definition matches_host (hostname line : string) : bool :=
  str_in MANAGED_HOSTS_MARKER line && str_in hostname line.

Definition prune (hostname : string) (lines : list string) : list string :=
  List.filter (fun line => negb (matches_host hostname line)) lines.

Definition host_entry (ip hostname key : string) : string :=
  ip +:+ " " +:+ hostname +:+ ".local " +:+ MANAGED_HOSTS_MARKER +:+ " (" +:+ key +:+ ")" +:+ nl.

Definition create_host_record (k8s_service : Service) (st : State) : State :=
  let key := service_key k8s_service in
  match status_ingress k8s_service with
  | [] => emit (LogWarning (MsgNoIP key)) st
  | first :: _ =>
      let ip := str_of_opt first in
      let hostname := advertised_name k8s_service in
      let hostname_fqdn := hostname +:+ ".local" in
      let st :=
        match hostname_map st !! hostname_fqdn with
        | Some existing_service =>
            if negb (String.eqb existing_service key)
            then emit (LogError (MsgHostnameConflict key hostname_fqdn existing_service)) st
            else st
        | None => st
        end in
      let existing_lines :=
        match hosts_file st with
        | Some content => readlines content
        | None => []
        end in
      let new_lines := prune hostname existing_lines ++ [host_entry ip hostname key] in
      emit (LogInfo (MsgCreatedA hostname_fqdn ip key))
        (mkState (Some (writelines new_lines)) (services_dir st) (managed_files st)
                 ({[hostname_fqdn]} ∪ managed_hosts st) true
                 (<[hostname_fqdn := key]> (hostname_map st)) (service_name_map st)
                 (trace st))
  end.

Definition txt_records_of (annotations : dict) : dict :=
  fold_left
    (fun txt_records kv =>
       if startswith "txt-" (fst kv)
       then dict_set txt_records (slice_from 4 (fst kv)) (snd kv)
       else txt_records)
    annotations [].

Definition create_service_record (k8s_service : Service) (st : State) : State :=
  let key := service_key k8s_service in
  match spec_ports k8s_service with
  | [] => emit (LogWarning (MsgNoPorts key)) st
  | first :: _ =>
      match first with
      | None => emit (LogWarning (MsgNoNodePort key)) st
      | Some port =>
          if port =? 0 then emit (LogWarning (MsgNoNodePort key)) st
          else
            let annotations := get_service_annotations k8s_service in
            let service_type := dict_get_default annotations "service-type" "_http._tcp" in
            let advertise_name := advertised_name k8s_service in
            let filename := service_filename advertise_name in
            let st :=
              match service_name_map st !! filename with
              | Some existing_service =>
                  if negb (String.eqb existing_service key)
                  then emit (LogError (MsgServiceNameConflict key advertise_name filename
                                         existing_service)) st
                  else st
              | None => st
              end in
            let avahi_service :=
              mkAvahiServiceFile advertise_name "" port service_type
                                 (txt_records_of annotations) in
            emit (LogInfo (MsgCreatedService filename key))
              (mkState (hosts_file st) (<[filename := to_xml avahi_service]> (services_dir st))
                       ({[filename]} ∪ managed_files st) (managed_hosts st) true
                       (hostname_map st) (<[filename := key]> (service_name_map st))
                       (trace st))
      end
  end.

Definition create_avahi_advertisement (k8s_service : Service) (st : State) : State :=
  if String.eqb (spec_type k8s_service) "LoadBalancer" then create_host_record k8s_service st
  else if String.eqb (spec_type k8s_service) "NodePort" then create_service_record k8s_service st
  else st.

(** The guarded [del] of both removal paths:
    [if name in m and m[name] == current_service_key: del m[name]]. *)
Definition release (name owner : string) (m : gmap string string) : gmap string string :=
  match m !! name with
  | Some holder => if String.eqb holder owner then delete name m else m
  | None => m
  end.

Definition remove_host_record (k8s_service : Service) (st : State) : State :=
  let hostname := advertised_name k8s_service in
  let hostname_fqdn := hostname +:+ ".local" in
  match hosts_file st with
  | None => st
  | Some content =>
      let existing_lines := readlines content in
      let new_lines := prune hostname existing_lines in
      if (List.length new_lines <? List.length existing_lines)%nat
      then
        let key := service_key k8s_service in
        emit (LogInfo (MsgRemovedA hostname_fqdn key))
          (mkState (Some (writelines new_lines)) (services_dir st) (managed_files st)
                   (managed_hosts st ∖ {[hostname_fqdn]}) true
                   (release hostname_fqdn key (hostname_map st)) (service_name_map st)
                   (trace st))
      else st
  end.

Definition remove_service_record (k8s_service : Service) (st : State) : State :=
  let filename := service_filename (advertised_name k8s_service) in
  match services_dir st !! filename with
  | Some _ =>
      let key := service_key k8s_service in
      emit (LogInfo (MsgRemovedService filename key))
        (mkState (hosts_file st) (delete filename (services_dir st))
                 (managed_files st ∖ {[filename]}) (managed_hosts st) true
                 (hostname_map st) (release filename key (service_name_map st))
                 (trace st))
  | None => st
  end.

Definition remove_avahi_advertisement (k8s_service : Service) (st : State) : State :=
  if String.eqb (spec_type k8s_service) "LoadBalancer" then remove_host_record k8s_service st
  else if String.eqb (spec_type k8s_service) "NodePort" then remove_service_record k8s_service st
  else st.

(** The body of the [for service in services.items] loop. *)
Definition sync_one (st : State) (service : Service) : State :=
  if should_advertise service then create_avahi_advertisement service st else st.

(** [listing] is what [list_service_for_all_namespaces] returns, [None] when
    it raises [ApiException]. *)
Definition sync_existing_services
    (listing : option (list Service)) (o : reload_outcome) (st : State) : State :=
  let st := emit (LogInfo MsgSyncing) st in
  match listing with
  | Some items => reload_avahi_daemon o (fold_left sync_one items st)
  | None => emit (LogError MsgListFailed) st
  end.

(** The branch on [event_type] inside the [for event in w.stream(...)] loop. *)
Definition reconcile (event_type : string) (service : Service) (st : State) : State :=
  if string_in_list event_type ["ADDED"; "MODIFIED"] then
    if should_advertise service then create_avahi_advertisement service st
    else remove_avahi_advertisement service st
  else if String.eqb event_type "DELETED" then remove_avahi_advertisement service st
  else st.

(** One watch event, with the result the reload command would give were it
    run while this event is handled. *)
Record Event : Type := mkEvent {
  ev_type : string;
  ev_object : Service;
  ev_reload : reload_outcome
}.

(** The whole body of the [for] loop: reconcile, then flush. *)
Definition handle_event (st : State) (event : Event) : State :=
  reload_avahi_daemon (ev_reload event) (reconcile (ev_type event) (ev_object event) st).

(** How one pass over [w.stream(...)] comes to its end. *)
Inductive stream_end : Type :=
| StreamClosed                   (* the generator is exhausted *)
| ApiException (status : Z)
| OtherException                 (* any other subclass of [Exception] *)
| Cancelled.                     (* [KeyboardInterrupt], [SystemExit]: not an [Exception] *)

Record Subscription : Type := mkSubscription {
  sub_events : list Event;       (* the events handled before the end *)
  sub_end : stream_end
}.

Inductive loop_ctl : Type :=
| Continue                       (* back to the head of [while True] *)
| Exit.                          (* the exception leaves [watch_services] *)

(** One iteration of [while True]. *)
Definition watch_iteration (sub : Subscription) (st : State) : loop_ctl * State :=
  let st := fold_left handle_event (sub_events sub) (emit Subscribe st) in
  match sub_end sub with
  | StreamClosed => (Continue, st)
  | ApiException status =>
      if status =? 410 then (Continue, emit (LogWarning MsgWatchExpired) st)
      else (Continue, emit (Sleep 5) (emit (LogError (MsgApiException status)) st))
  | OtherException => (Continue, emit (Sleep 5) (emit (LogError MsgUnexpected) st))
  | Cancelled => (Exit, st)
  end.

(** [watch_services] against a finite prefix of what the cluster delivers:
    [Continue] means the loop is at its head again, about to subscribe. *)
Fixpoint watch_loop (subs : list Subscription) (st : State) : loop_ctl * State :=
  match subs with
  | [] => (Continue, st)
  | sub :: rest =>
      match watch_iteration sub st with
      | (Continue, st') => watch_loop rest st'
      | (Exit, st') => (Exit, st')
      end
  end.

Definition watch_services (subs : list Subscription) (st : State) : loop_ctl * State :=
  watch_loop subs (emit (LogInfo MsgWatchStart) st).

(** ** Observations used in the statements *)

Definition is_conflict (e : effect) : bool :=
  match e with
  | LogError (MsgHostnameConflict _ _ _) => true
  | LogError (MsgServiceNameConflict _ _ _ _) => true
  | _ => false
  end.

Definition is_sleep (e : effect) : bool :=
  match e with
  | Sleep _ => true
  | _ => false
  end.

Definition is_reload (e : effect) : bool :=
  match e with
  | RunReload => true
  | _ => false
  end.

(** The lines of the hosts file as the next read would see them. *)
Definition hosts_lines (st : State) : list string :=
  match hosts_file st with
  | Some content => readlines content
  | None => []
  end.

(** The managed lines that the pruning test attributes to [hostname]. *)
Definition host_lines_of (hostname : string) (st : State) : list string :=
  List.filter (matches_host hostname) (hosts_lines st).

(** The lines without the managed marker. *)
Definition unmanaged_lines (st : State) : list string :=
  List.filter (fun line => negb (str_in MANAGED_HOSTS_MARKER line)) (hosts_lines st).

Definition no_newline (s : string) : bool := negb (str_in nl s).

(** Namespaces are DNS labels: no slash occurs in them. *)
Definition no_slash (s : string) : bool := negb (str_in "/" s).

(** Empty, or ending in a line feed. *)
Fixpoint terminated (s : string) : bool :=
  match s with
  | EmptyString => true
  | String c EmptyString => Ascii.eqb c LF
  | String _ rest => terminated rest
  end.

Definition empty_state : State :=
  mkState (Some "") ∅ ∅ ∅ false ∅ ∅ [].

(** What a list must satisfy for [readlines] to read it back from what
    [writelines] wrote: every element is one line, and only the last may
    lack its line feed. *)
Fixpoint lines_ok (lines : list string) : Prop :=
  match lines with
  | [] => True
  | l :: rest =>
      readlines l = [l] /\ (rest = [] \/ terminated l = true) /\ lines_ok rest
  end.

(** The names and the record a service snapshot computes. *)
Definition hostname_fqdn (service : Service) : string :=
  advertised_name service +:+ ".local".

Definition first_ip (service : Service) : string :=
  match status_ingress service with
  | [] => ""
  | first :: _ => str_of_opt first
  end.

Definition entry_for (service : Service) : string :=
  host_entry (first_ip service) (advertised_name service) (service_key service).

Definition one_line_entry (service : Service) : bool :=
  no_newline (first_ip service) && no_newline (advertised_name service)
  && no_newline (service_key service).

Definition record_filename (service : Service) : string :=
  service_filename (advertised_name service).

(** The node port [create_service_record] goes on with: the first declared
    port's, when it is truthy. *)
Definition node_port_of (service : Service) : option Z :=
  match spec_ports service with
  | Some port :: _ => if port =? 0 then None else Some port
  | _ => None
  end.

Definition record_xml (service : Service) (port : Z) : string :=
  let annotations := get_service_annotations service in
  to_xml (mkAvahiServiceFile (advertised_name service) "" port
            (dict_get_default annotations "service-type" "_http._tcp")
            (txt_records_of annotations)).

Definition is_upsert (event_type : string) : bool :=
  string_in_list event_type ["ADDED"; "MODIFIED"].

(** The conflict, if any, that reconciling a service logs: the name is
    held, and by another key. *)
Definition conflict_of (holder : option string) (key : string)
    (report : string -> message) : list effect :=
  match holder with
  | Some existing_service =>
      if negb (String.eqb existing_service key)
      then [LogError (report existing_service)]
      else []
  | None => []
  end.

Definition host_conflicts (service : Service) (st : State) : list effect :=
  conflict_of (hostname_map st !! hostname_fqdn service) (service_key service)
    (MsgHostnameConflict (service_key service) (hostname_fqdn service)).

Definition service_conflicts (service : Service) (st : State) : list effect :=
  conflict_of (service_name_map st !! record_filename service) (service_key service)
    (MsgServiceNameConflict (service_key service) (advertised_name service)
       (record_filename service)).

(** The hosts file is absent, empty, or ends in a line feed. *)
Definition hosts_terminated (st : State) : bool :=
  match hosts_file st with
  | Some content => terminated content
  | None => true
  end.

Definition is_subscribe (e : effect) : bool :=
  match e with
  | Subscribe => true
  | _ => false
  end.

(** From [st] to [st'] either the reload flag ends up set, or neither
    artifact nor the flag was touched. *)
Definition flag_covers (st st' : State) : Prop :=
  needs_reload st' = true
  \/ (hosts_file st' = hosts_file st /\ services_dir st' = services_dir st
      /\ needs_reload st' = needs_reload st).

(** From [st] to [st'] the trace only grew, and by effects that neither
    sleep nor subscribe. *)
Definition quiet_step (st st' : State) : Prop :=
  exists tail, trace st' = trace st ++ tail
               /\ Forall (fun e => is_sleep e = false /\ is_subscribe e = false) tail.

(** The state an iteration of the watch loop is in once the events of its
    subscription are handled. *)
Definition after_events (sub : Subscription) (st : State) : State :=
  fold_left handle_event (sub_events sub) (emit Subscribe st).

(** What the [except] clauses add to the trace for each way a pass ends. *)
Definition ending_effects (ending : stream_end) : list effect :=
  match ending with
  | StreamClosed => []
  | ApiException status =>
      if status =? 410 then [LogWarning MsgWatchExpired]
      else [LogError (MsgApiException status); Sleep 5]
  | OtherException => [LogError MsgUnexpected; Sleep 5]
  | Cancelled => []
  end.

(** ** Sample snapshots *)

Definition shop : Service :=
  mkService "shop" "web" [] "LoadBalancer" [] [Some "10.0.42.50"].

Definition shop2 : Service :=
  mkService "shop2" "web" [] "LoadBalancer" [] [Some "10.0.42.51"].

(** [web/shop2] with the override [avahi.local/name: shop]. *)
Definition shop2_as_shop : Service :=
  mkService "shop2" "web" [("avahi.local/name", "shop")] "LoadBalancer" []
            [Some "10.0.42.51"].

(** [web/shop] after its type was changed to ClusterIP. *)
Definition shop_cluster_ip : Service :=
  mkService "shop" "web" [] "ClusterIP" [] [].

(** [web/shop] with [avahi.local/enabled: false]. *)
Definition shop_disabled : Service :=
  mkService "shop" "web" [("avahi.local/enabled", "false")] "LoadBalancer" []
            [Some "10.0.42.50"].



Definition grafana : Service :=
  mkService "grafana" "tools" [("avahi.local/name", "dashboards")] "NodePort"
            [Some 31000] [].


(** [ops/board] with the override [Dashboards]: the same file name as
    [grafana]'s. *)
Definition board : Service :=
  mkService "board" "ops" [("avahi.local/name", "Dashboards")] "NodePort"
            [Some 32000] [].

(** A hand-written hosts file whose last line has no line feed. *)
Definition printer_line : string := "192.168.1.1 printer.local".

Definition unterminated_state : State :=
  mkState (Some printer_line) ∅ ∅ ∅ false ∅ ∅ [].

Definition shop_line : string :=
  "10.0.42.50 shop.local # Managed by k8s-avahi-advertiser (web/shop)" +:+ nl.

Definition shop2_line : string :=
  "10.0.42.51 shop2.local # Managed by k8s-avahi-advertiser (web/shop2)" +:+ nl.

(** ** Sample states *)

(** [web/shop] was advertised, then [web/shop2] took [shop.local] over. *)
Definition displaced_host_state : State :=
  reconcile "ADDED" shop2_as_shop (reconcile "ADDED" shop empty_state).

(** A pass that handles one event and then finds its position expired, and
    a pass that fails at once with a server error. *)
Definition stale_pass : Subscription :=
  mkSubscription [mkEvent "ADDED" shop (Completed 0 "")] (ApiException 410).

Definition failed_pass : Subscription :=
  mkSubscription [] (ApiException 503).

Definition broken_pass : Subscription :=
  mkSubscription [] OtherException.

(** [tools/grafana] was advertised, then [ops/board] took the file over. *)
Definition displaced_service_state : State :=
  reconcile "ADDED" board (reconcile "ADDED" grafana empty_state).

(** ** Further observations *)

(** The comprehension shared by [get_service_annotations] and the TXT loop of
    [create_service_record]: keep the entries whose key starts with [p], under
    the key with [p] cut off. *)
Definition select_prefixed (p : string) (d : dict) : dict :=
  fold_left
    (fun acc kv =>
       if startswith p (fst kv)
       then dict_set acc (slice_from (String.length p) (fst kv)) (snd kv)
       else acc)
    d [].

Definition dict_keys (d : dict) : list string := map fst d.

Fixpoint string_forall (f : ascii -> bool) (s : string) : bool :=
  match s with
  | EmptyString => true
  | String c s' => f c && string_forall f s'
  end.

(** The characters a sanitised name is made of. *)
Definition is_safe_char (c : ascii) : bool :=
  is_lower c || is_digit c || Ascii.eqb c "-" || Ascii.eqb c "_".

(** Seven-bit text, on which the model of [lower] and [isalnum] is Python's. *)
Definition is_ascii_char (c : ascii) : bool := (nat_of_ascii c <? 128)%nat.

(** No whitespace, and not empty: one token of [str.split]. *)
Definition is_token (s : string) : bool :=
  negb (is_empty_string s) && string_forall (fun c => negb (is_space c)) s.

(** The fixed parts of the service document. *)
Definition xml_prologue (f : AvahiServiceFile) : string :=
  "<?xml version=" +:+ dquote +:+ "1.0" +:+ dquote +:+ " standalone='no'?>" +:+ nl +:+
  "<!DOCTYPE service-group SYSTEM " +:+ dquote +:+ "avahi-service.dtd" +:+ dquote +:+ ">" +:+ nl +:+
  "<service-group>" +:+ nl +:+
  "  <name replace-wildcards=" +:+ dquote +:+ "yes" +:+ dquote +:+ ">" +:+ asf_name f +:+ "</name>" +:+ nl +:+
  "  <service>" +:+ nl +:+
  "    <type>" +:+ asf_service_type f +:+ "</type>" +:+ nl +:+
  "    <port>" +:+ str_of_int (asf_port f) +:+ "</port>" +:+ nl.

Definition xml_epilogue : string :=
  "  </service>" +:+ nl +:+ "</service-group>" +:+ nl.

Definition txt_record_line (kv : string * string) : string :=
  txt_record_xml kv +:+ nl.

(** The advertiser's own record of advertisement files is backed by the
    directory. *)
Definition files_tracked (st : State) : Prop :=
  managed_files st ⊆ dom (services_dir st).

Definition is_log (e : effect) : bool :=
  match e with
  | LogError _ | LogWarning _ | LogInfo _ => true
  | _ => false
  end.

(** From [st] to [st'] the trace only grew, and by log lines. *)
Definition logs_only (st st' : State) : Prop :=
  exists tail, trace st' = trace st ++ tail /\ Forall (fun e => is_log e = true) tail.

(** An advertiser that has just been constructed over the two artifact
    locations. *)
Definition fresh_state (hosts : option string) (dir : gmap string string) : State :=
  mkState hosts dir ∅ ∅ false ∅ ∅ [].

(** The two steps of [run] after its opening log line. *)
Definition sync_then_watch (listing : option (list Service)) (o : reload_outcome)
    (subs : list Subscription) (st : State) : loop_ctl * State :=
  watch_services subs (sync_existing_services listing o st).

(** A qualifying snapshot for which the creating operation has what it
    needs: any LoadBalancer that qualifies, and a NodePort whose first port
    has a node port. *)
Definition advertisable (service : Service) : bool :=
  should_advertise service
  && (String.eqb (spec_type service) "LoadBalancer"
      || String.eqb (spec_type service) "NodePort"
         && match node_port_of service with Some _ => true | None => false end).

(** From [st] to [st'] nothing the advertiser keeps was dropped: files,
    claims and bookkeeping sets only grew. *)
Definition only_adds (st st' : State) : Prop :=
  dom (services_dir st) ⊆ dom (services_dir st')
  /\ dom (hostname_map st) ⊆ dom (hostname_map st')
  /\ dom (service_name_map st) ⊆ dom (service_name_map st')
  /\ managed_files st ⊆ managed_files st'
  /\ managed_hosts st ⊆ managed_hosts st'.

(** The body of the loop of [_load_managed_hosts]. *)
Definition load_line (st : State) (line : string) : State :=
  if str_in MANAGED_HOSTS_MARKER line
  then match split line with
       | _ :: host :: _ :: _ =>
           mkState (hosts_file st) (services_dir st) (managed_files st)
                   ({[host]} ∪ managed_hosts st) (needs_reload st)
                   (hostname_map st) (service_name_map st) (trace st)
       | _ => st
       end
  else st.

(** ** Construction *)

(** What [__init__] finds: whether each way of loading the cluster
    configuration succeeds, the hosts file, whether [touch] succeeds, the
    services directory ([None] when it does not exist), and what [os.access]
    answers for the two locations. *)
Record StartupEnv : Type := mkStartupEnv {
  env_incluster : bool;
  env_kubeconfig : bool;
  env_hosts : option string;
  env_touch : bool;
  env_hosts_writable : bool;
  env_services : option (gmap string string);
  env_services_writable : bool
}.

Inductive startup_message : Type :=
| MsgInCluster
| MsgKubeconfig
| MsgNoConfig
| MsgHostsMissing
| MsgCannotCreateHosts
| MsgHostsNotWritable
| MsgServicesMissing
| MsgServicesNotWritable
| MsgHostsPath
| MsgServicesPath.

Inductive startup_log : Type :=
| StartInfo (m : startup_message)
| StartWarning (m : startup_message)
| StartError (m : startup_message).

(** The constructor returns an advertiser, or leaves through [sys.exit];
    its log lines are kept apart from the trace of the run. *)
Inductive startup : Type :=
| Started (log : list startup_log) (st : State)
| Exited (log : list startup_log) (code : Z).

Definition __init__ (env : StartupEnv) : startup :=
  match (if env_incluster env then Some [StartInfo MsgInCluster]
         else if env_kubeconfig env then Some [StartInfo MsgKubeconfig]
         else None) with
  | None => Exited [StartError MsgNoConfig] 1
  | Some log =>
      match (match env_hosts env with
             | Some content => Some (log, content)
             | None =>
                 if env_touch env then Some (log ++ [StartWarning MsgHostsMissing], "")
                 else None
             end) with
      | None =>
          Exited (log ++ [StartWarning MsgHostsMissing; StartError MsgCannotCreateHosts]) 1
      | Some (log, content) =>
          if negb (env_hosts_writable env)
          then Exited (log ++ [StartError MsgHostsNotWritable]) 1
          else match env_services env with
               | None => Exited (log ++ [StartError MsgServicesMissing]) 1
               | Some dir =>
                   if negb (env_services_writable env)
                   then Exited (log ++ [StartError MsgServicesNotWritable]) 1
                   else Started (log ++ [StartInfo MsgHostsPath; StartInfo MsgServicesPath])
                                (_load_managed_hosts (fresh_state (Some content) dir))
               end
      end
  end.

(** A start in a cluster, over a hosts file that holds one managed line. *)
Definition restart_env : StartupEnv :=
  mkStartupEnv true false (Some shop_line) false true (Some ∅) true.

(** ** Text without line breaks *)

Definition CR : ascii := "013"%char.
Definition cr : string := String CR "".

(** Python's text layer reads a carriage return as a line end and writes it
    as it is: only text that holds none is read back as it was written. *)
Definition no_cr (s : string) : bool := negb (str_in cr s).

(** The entry of a service takes one line of the hosts file however it is
    read back: neither a line feed nor a carriage return occurs in the
    address, the advertised name, the namespace or the name. *)
Definition plain_entry (service : Service) : bool :=
  one_line_entry service
  && no_cr (first_ip service) && no_cr (advertised_name service)
  && no_cr (service_key service).

(** Seven-bit text: the blanks that [str.split] splits at are then those
    of [is_space]. *)
Definition seven_bit (s : string) : bool := string_forall is_ascii_char s.



(** ** The run of the watch loop, pass by pass *)

(** The sleeps that the way a pass ends adds. *)
Definition pass_sleeps (sub : Subscription) : list effect :=
  List.filter is_sleep (ending_effects (sub_end sub)).

(** * Text lemmas *)

Section Text.

Lemma append_cons (c : ascii) (a b : string) : String c a +:+ b = String c (a +:+ b).
Proof. reflexivity. Qed.

Lemma append_empty_r (s : string) : s +:+ "" = s.
Proof. induction s as [|c s IH]; [reflexivity |]. rewrite append_cons. now f_equal. Qed.

Lemma append_assoc (a b c : string) : (a +:+ b) +:+ c = a +:+ b +:+ c.
Proof. induction a as [|x a IH]; [reflexivity |]. rewrite !append_cons. now f_equal. Qed.

Lemma prefix_empty (s : string) : String.prefix "" s = true.
Proof. destruct s; reflexivity. Qed.

Lemma prefix_append (p s : string) : String.prefix p (p +:+ s) = true.
Proof.
  induction p as [|c p IH]; [apply prefix_empty |].
  rewrite append_cons. cbn [String.prefix].
  destruct (ascii_dec c c) as [_ | ne]; [exact IH | now elim ne].
Qed.

Lemma prefix_append_r (p a b : string) :
  String.prefix p a = true -> String.prefix p (a +:+ b) = true.
Proof.
  revert a. induction p as [|c p IH]; intros a H; [apply prefix_empty |].
  destruct a as [|x a]; [discriminate |].
  rewrite append_cons. cbn [String.prefix] in *.
  destruct (ascii_dec c x); [now apply IH | discriminate].
Qed.

Lemma str_in_cons (sub : string) (c : ascii) (s : string) :
  str_in sub (String c s) = String.prefix sub (String c s) || str_in sub s.
Proof. reflexivity. Qed.

Lemma str_in_prefix (p s : string) : String.prefix p s = true -> str_in p s = true.
Proof. intros H. destruct s; cbn [str_in]; rewrite H; reflexivity. Qed.

Lemma str_in_append_r (sub a b : string) :
  str_in sub b = true -> str_in sub (a +:+ b) = true.
Proof.
  intros H. induction a as [|c a IH]; [exact H |].
  rewrite append_cons, str_in_cons, IH. apply orb_true_r.
Qed.

Lemma str_in_append_l (sub a b : string) :
  str_in sub a = true -> str_in sub (a +:+ b) = true.
Proof.
  induction a as [|c a IH]; intros H.
  - destruct sub; [|discriminate]. apply str_in_prefix, prefix_empty.
  - rewrite str_in_cons in H. apply orb_true_iff in H as [H | H].
    + apply str_in_prefix. now apply prefix_append_r.
    + rewrite append_cons, str_in_cons, (IH H). apply orb_true_r.
Qed.

Lemma str_in_middle (sub a b : string) : str_in sub (a +:+ sub +:+ b) = true.
Proof. apply str_in_append_r, str_in_prefix, prefix_append. Qed.

Lemma str_in_char_cons (x c : ascii) (s : string) :
  str_in (String x "") (String c s) = Ascii.eqb c x || str_in (String x "") s.
Proof.
  rewrite str_in_cons. f_equal. cbn [String.prefix].
  destruct (ascii_dec x c) as [e | ne].
  - subst c. rewrite Ascii.eqb_refl. apply prefix_empty.
  - symmetry. apply Ascii.eqb_neq. congruence.
Qed.

Lemma str_in_nl_cons (c : ascii) (s : string) :
  str_in nl (String c s) = Ascii.eqb c LF || str_in nl s.
Proof. apply str_in_char_cons. Qed.

Lemma terminated_cons (c : ascii) (s : string) :
  s <> "" -> terminated (String c s) = terminated s.
Proof. destruct s; [congruence | reflexivity]. Qed.

Lemma terminated_append (a b : string) :
  terminated a = true -> terminated b = true -> terminated (a +:+ b) = true.
Proof.
  intros Ha Hb. induction a as [|c a IH]; [exact Hb |].
  destruct a as [|d a].
  - destruct b as [|e b]; [exact Ha | exact Hb].
  - rewrite append_cons, terminated_cons by (rewrite append_cons; discriminate).
    apply IH. exact Ha.
Qed.

Lemma terminated_append_nl (a : string) : terminated (a +:+ nl) = true.
Proof.
  induction a as [|c a IH]; [reflexivity |].
  rewrite append_cons, terminated_cons; [exact IH |].
  destruct a; discriminate.
Qed.

Lemma readlines_cons (c : ascii) (rest : string) :
  readlines (String c rest) =
  if Ascii.eqb c LF then String c "" :: readlines rest
  else match readlines rest with
       | [] => [String c ""]
       | l :: ls => String c l :: ls
       end.
Proof. reflexivity. Qed.

Lemma readlines_nonempty (s : string) : s <> "" -> readlines s <> [].
Proof.
  destruct s as [|c s]; [congruence | intros _].
  rewrite readlines_cons.
  destruct (Ascii.eqb c LF); [discriminate |].
  destruct (readlines s); discriminate.
Qed.

Lemma writelines_cons (l : string) (ls : list string) :
  writelines (l :: ls) = l +:+ writelines ls.
Proof. reflexivity. Qed.

Lemma writelines_readlines (s : string) : writelines (readlines s) = s.
Proof.
  induction s as [|c s IH]; [reflexivity |].
  rewrite readlines_cons.
  destruct (Ascii.eqb c LF).
  - rewrite writelines_cons, IH. reflexivity.
  - destruct (readlines s) as [|l ls].
    + cbn in IH. subst s. reflexivity.
    + rewrite writelines_cons in *. rewrite append_cons. now f_equal.
Qed.

Lemma writelines_app (xs ys : list string) :
  writelines (xs ++ ys) = writelines xs +:+ writelines ys.
Proof.
  induction xs as [|x xs IH]; [reflexivity |].
  rewrite <- app_comm_cons, !writelines_cons, IH, append_assoc. reflexivity.
Qed.

Lemma readlines_append (s t : string) :
  terminated s = true -> readlines (s +:+ t) = readlines s ++ readlines t.
Proof.
  induction s as [|c s IH]; intros H; [reflexivity |].
  destruct s as [|d s].
  - cbn in H. rewrite append_cons, !readlines_cons, H. reflexivity.
  - rewrite terminated_cons in H by discriminate.
    rewrite append_cons, (readlines_cons c (String d s +:+ t)), (IH H).
    rewrite (readlines_cons c (String d s)).
    destruct (Ascii.eqb c LF); [reflexivity |].
    pose proof (readlines_nonempty (String d s) ltac:(discriminate)) as Hne.
    destruct (readlines (String d s)); [congruence | reflexivity].
Qed.

Lemma readlines_one_line (body : string) :
  no_newline body = true -> readlines (body +:+ nl) = [body +:+ nl].
Proof.
  unfold no_newline. induction body as [|c body IH]; intros H; [reflexivity |].
  rewrite str_in_nl_cons, negb_orb in H. apply andb_true_iff in H as [Hc Hb].
  apply negb_true_iff in Hc.
  rewrite append_cons, readlines_cons, Hc, (IH Hb). reflexivity.
Qed.

Lemma no_newline_append (a b : string) :
  no_newline (a +:+ b) = no_newline a && no_newline b.
Proof.
  unfold no_newline. induction a as [|c a IH]; [reflexivity |].
  rewrite append_cons, !str_in_nl_cons, !negb_orb, IH. now rewrite andb_assoc.
Qed.

End Text.

(** * Reading back what was written *)

Section Lines.

Lemma readlines_is_line (l : string) : readlines l = [l] -> l <> "".
Proof. intros H ->. discriminate. Qed.

Lemma lines_ok_readlines (s : string) : lines_ok (readlines s).
Proof.
  induction s as [|c s IH]; [exact I |].
  rewrite readlines_cons. destruct (Ascii.eqb c LF) eqn:Ec.
  - cbn [lines_ok]. split; [| split; [| exact IH]].
    + rewrite readlines_cons, Ec. reflexivity.
    + right. exact Ec.
  - destruct (readlines s) as [|l ls].
    + cbn [lines_ok]. rewrite readlines_cons, Ec. auto.
    + destruct IH as (Hl & Hlast & Hrest). cbn [lines_ok].
      split; [| split; [| exact Hrest]].
      * rewrite readlines_cons, Ec, Hl. reflexivity.
      * destruct Hlast as [-> | Ht]; [now left | right].
        rewrite terminated_cons; [exact Ht | now apply readlines_is_line].
Qed.

Lemma lines_ok_filter (f : string -> bool) (ls : list string) :
  lines_ok ls -> lines_ok (List.filter f ls).
Proof.
  induction ls as [|l ls IH]; [trivial |].
  intros (Hl & Hlast & Hrest). cbn [List.filter].
  destruct (f l); [| now apply IH].
  cbn [lines_ok]. split; [exact Hl | split; [| now apply IH]].
  destruct Hlast as [-> | Ht]; [now left | now right].
Qed.

Lemma readlines_writelines (ls : list string) :
  lines_ok ls -> readlines (writelines ls) = ls.
Proof.
  induction ls as [|l ls IH]; [reflexivity |].
  intros (Hl & Hlast & Hrest). rewrite writelines_cons.
  destruct Hlast as [-> | Ht].
  - cbn [writelines]. rewrite append_empty_r. exact Hl.
  - rewrite readlines_append by exact Ht. rewrite Hl, (IH Hrest). reflexivity.
Qed.

(** Pruning and writing back is read as the pruned list, whatever the file. *)
Lemma readlines_filter_roundtrip (f : string -> bool) (s : string) :
  readlines (writelines (List.filter f (readlines s))) = List.filter f (readlines s).
Proof. apply readlines_writelines, lines_ok_filter, lines_ok_readlines. Qed.

Lemma terminated_lines (s : string) :
  terminated s = true -> Forall (fun l => terminated l = true) (readlines s).
Proof.
  induction s as [|c s IH]; intros H; [constructor |].
  destruct s as [|d s].
  - cbn in H. rewrite readlines_cons, H. repeat constructor. exact H.
  - rewrite terminated_cons in H by discriminate. specialize (IH H).
    rewrite readlines_cons. destruct (Ascii.eqb c LF) eqn:Ec.
    + constructor; [exact Ec | exact IH].
    + pose proof (lines_ok_readlines (String d s)) as Hok.
      pose proof (readlines_nonempty (String d s) ltac:(discriminate)) as Hne.
      destruct (readlines (String d s)) as [|l ls]; [congruence |].
      inversion IH; subst. constructor; [| assumption].
      rewrite terminated_cons; [assumption |].
      destruct Hok as (Hl & _). now apply readlines_is_line.
Qed.

Lemma writelines_terminated (ls : list string) :
  Forall (fun l => terminated l = true) ls -> terminated (writelines ls) = true.
Proof.
  induction 1 as [|l ls Hl _ IH]; [reflexivity |].
  rewrite writelines_cons. now apply terminated_append.
Qed.

Lemma filter_terminated (f : string -> bool) (s : string) :
  terminated s = true -> terminated (writelines (List.filter f (readlines s))) = true.
Proof.
  intros H. apply writelines_terminated.
  apply List.Forall_forall. intros l Hin. apply List.filter_In in Hin as [Hin _].
  pose proof (terminated_lines s H) as HF.
  rewrite List.Forall_forall in HF. auto.
Qed.

Lemma filter_length_all {A} (f : A -> bool) (l : list A) :
  (List.length (List.filter f l) <? List.length l)%nat = false -> List.filter f l = l.
Proof.
  intros H. apply Nat.ltb_ge in H.
  induction l as [|x l IH]; [reflexivity |].
  cbn [List.filter] in *. pose proof (List.filter_length_le f l) as Hle.
  destruct (f x); cbn [List.length] in H.
  - f_equal. apply IH. lia.
  - lia.
Qed.

Lemma filter_filter_negb {A} (f : A -> bool) (l : list A) :
  List.filter f (List.filter (fun x => negb (f x)) l) = [].
Proof.
  induction l as [|x l IH]; [reflexivity |].
  cbn [List.filter]. destruct (f x) eqn:E; cbn [negb List.filter]; [exact IH |].
  rewrite E. exact IH.
Qed.

End Lines.

(** * What each operation leaves behind *)

Section Operations.

Lemma host_entry_body (ip hostname key : string) :
  host_entry ip hostname key =
  (ip +:+ " " +:+ hostname +:+ ".local " +:+ MANAGED_HOSTS_MARKER +:+ " (" +:+ key +:+ ")")
  +:+ nl.
Proof. unfold host_entry. now rewrite !append_assoc. Qed.

Lemma host_entry_terminated (ip hostname key : string) :
  terminated (host_entry ip hostname key) = true.
Proof. rewrite host_entry_body. apply terminated_append_nl. Qed.

Lemma host_entry_one_line (ip hostname key : string) :
  no_newline ip && no_newline hostname && no_newline key = true ->
  readlines (host_entry ip hostname key) = [host_entry ip hostname key].
Proof.
  intros H. apply andb_true_iff in H as [H Hk]. apply andb_true_iff in H as [Hi Hh].
  rewrite host_entry_body. apply readlines_one_line.
  rewrite !no_newline_append, Hi, Hh, Hk. reflexivity.
Qed.

Lemma matches_host_entry (ip hostname key : string) :
  matches_host hostname (host_entry ip hostname key) = true.
Proof.
  unfold matches_host, host_entry. apply andb_true_iff. split.
  - rewrite <- (append_assoc ip), <- (append_assoc (ip +:+ " ")),
      <- (append_assoc ((ip +:+ " ") +:+ hostname)).
    apply str_in_middle.
  - rewrite <- (append_assoc ip). apply str_in_middle.
Qed.

Lemma prune_matches (hostname : string) (ls : list string) :
  List.filter (matches_host hostname) (prune hostname ls) = [].
Proof. apply filter_filter_negb. Qed.

Lemma prune_id (hostname : string) (ls : list string) :
  List.filter (matches_host hostname) ls = [] -> prune hostname ls = ls.
Proof.
  unfold prune. induction ls as [|l ls IH]; [reflexivity |].
  cbn [List.filter]. destruct (matches_host hostname l); [discriminate |].
  intros H. cbn [negb]. f_equal. now apply IH.
Qed.

Lemma prune_unmanaged (hostname : string) (ls : list string) :
  List.filter (fun line => negb (str_in MANAGED_HOSTS_MARKER line)) (prune hostname ls) =
  List.filter (fun line => negb (str_in MANAGED_HOSTS_MARKER line)) ls.
Proof.
  unfold prune. induction ls as [|l ls IH]; [reflexivity |].
  cbn [List.filter]. unfold matches_host at 1.
  destruct (str_in MANAGED_HOSTS_MARKER l) eqn:Em; cbn [andb negb].
  - destruct (str_in hostname l); cbn [negb List.filter]; [exact IH |].
    rewrite Em. exact IH.
  - cbn [List.filter]. rewrite Em. cbn [negb]. now f_equal.
Qed.


Lemma trace_emit (e : effect) (st : State) : trace (emit e st) = trace st ++ [e].
Proof. reflexivity. Qed.

End Operations.

(** ** Host records *)

Section HostRecords.

Variables (svc : Service) (st : State).

Lemma create_host_record_no_ip :
  status_ingress svc = [] ->
  create_host_record svc st = emit (LogWarning (MsgNoIP (service_key svc))) st.
Proof. intros H. unfold create_host_record. now rewrite H. Qed.

Lemma create_host_record_fields :
  status_ingress svc <> [] ->
  let st' := create_host_record svc st in
  hosts_file st' =
    Some (writelines (prune (advertised_name svc) (hosts_lines st) ++ [entry_for svc]))
  /\ services_dir st' = services_dir st
  /\ needs_reload st' = true
  /\ hostname_map st' = <[hostname_fqdn svc := service_key svc]> (hostname_map st)
  /\ service_name_map st' = service_name_map st
  /\ trace st' = trace st ++ host_conflicts svc st
                 ++ [LogInfo (MsgCreatedA (hostname_fqdn svc) (first_ip svc) (service_key svc))].
Proof.
  intros Hing. unfold create_host_record, entry_for, first_ip, host_conflicts,
    conflict_of, hostname_fqdn, hosts_lines.
  destruct (status_ingress svc) as [|first rest]; [congruence |].
  destruct (hostname_map st !! (advertised_name svc +:+ ".local")) as [existing|];
    [destruct (negb (String.eqb existing (service_key svc))) |];
    cbn; rewrite <- ?app_assoc; repeat split; reflexivity.
Qed.

Lemma create_host_record_terminated :
  status_ingress svc <> [] -> hosts_terminated (create_host_record svc st) = true.
Proof.
  intros Hing. destruct (create_host_record_fields Hing) as (Hf & _).
  unfold hosts_terminated. rewrite Hf.
  rewrite writelines_app. cbn [writelines]. rewrite append_empty_r.
  unfold entry_for. rewrite host_entry_body, <- append_assoc.
  apply terminated_append_nl.
Qed.

(** On a hosts file that ends in a line feed, and for an entry that is one
    line, the next read sees the pruned lines followed by the new entry. *)
Lemma create_host_record_lines :
  status_ingress svc <> [] ->
  hosts_terminated st = true ->
  one_line_entry svc = true ->
  hosts_lines (create_host_record svc st) =
  prune (advertised_name svc) (hosts_lines st) ++ [entry_for svc].
Proof.
  intros Hing Hterm Hone. destruct (create_host_record_fields Hing) as (Hf & _).
  unfold hosts_lines at 1. rewrite Hf, writelines_app.
  cbn [writelines]. rewrite append_empty_r.
  unfold hosts_terminated, hosts_lines in *.
  destruct (hosts_file st) as [content|].
  - rewrite readlines_append by now apply filter_terminated.
    unfold prune. rewrite readlines_filter_roundtrip.
    unfold entry_for. now rewrite host_entry_one_line.
  - rewrite readlines_append by reflexivity.
    unfold entry_for. now rewrite host_entry_one_line.
Qed.

Lemma remove_host_record_lines :
  hosts_lines (remove_host_record svc st) = prune (advertised_name svc) (hosts_lines st).
Proof.
  unfold remove_host_record, hosts_lines.
  destruct (hosts_file st) as [content|] eqn:Hf; [| now rewrite Hf].
  destruct (_ <? _)%nat eqn:Hlt.
  - cbn. unfold prune. apply readlines_filter_roundtrip.
  - rewrite Hf. symmetry. now apply filter_length_all.
Qed.

Lemma remove_host_record_noop :
  host_lines_of (advertised_name svc) st = [] -> remove_host_record svc st = st.
Proof.
  unfold host_lines_of, hosts_lines, remove_host_record. intros H.
  destruct (hosts_file st) as [content|]; [| reflexivity].
  rewrite (prune_id _ _ H), Nat.ltb_irrefl. reflexivity.
Qed.

Lemma remove_host_record_changed :
  host_lines_of (advertised_name svc) st <> [] ->
  exists content,
    hosts_file st = Some content /\
    remove_host_record svc st =
    emit (LogInfo (MsgRemovedA (hostname_fqdn svc) (service_key svc)))
      (mkState (Some (writelines (prune (advertised_name svc) (readlines content))))
               (services_dir st) (managed_files st)
               (managed_hosts st ∖ {[hostname_fqdn svc]}) true
               (release (hostname_fqdn svc) (service_key svc) (hostname_map st))
               (service_name_map st) (trace st)).
Proof.
  unfold host_lines_of, hosts_lines, remove_host_record. intros H.
  destruct (hosts_file st) as [content|]; [| now elim H].
  exists content. split; [reflexivity |].
  destruct (_ <? _)%nat eqn:Hlt; [reflexivity |].
  apply filter_length_all in Hlt. exfalso. apply H.
  fold (prune (advertised_name svc) (readlines content)) in Hlt.
  rewrite <- Hlt. apply prune_matches.
Qed.

End HostRecords.


(** ** Service records *)

Section ServiceRecords.

Variables (svc : Service) (st : State).

Lemma create_service_record_fields (port : Z) :
  node_port_of svc = Some port ->
  let st' := create_service_record svc st in
  services_dir st' = <[record_filename svc := record_xml svc port]> (services_dir st)
  /\ hosts_file st' = hosts_file st
  /\ needs_reload st' = true
  /\ hostname_map st' = hostname_map st
  /\ service_name_map st' = <[record_filename svc := service_key svc]> (service_name_map st)
  /\ trace st' = trace st ++ service_conflicts svc st
                 ++ [LogInfo (MsgCreatedService (record_filename svc) (service_key svc))].
Proof.
  unfold node_port_of, create_service_record, service_conflicts, conflict_of,
    record_filename, record_xml.
  destruct (spec_ports svc) as [|[p|] rest]; try discriminate.
  destruct (p =? 0); [discriminate |]. intros [= ->].
  destruct (service_name_map st !! service_filename (advertised_name svc)) as [existing|];
    [destruct (negb (String.eqb existing (service_key svc))) |];
    cbn; rewrite <- ?app_assoc; repeat split; reflexivity.
Qed.

Lemma create_service_record_skipped :
  node_port_of svc = None ->
  exists m, create_service_record svc st = emit (LogWarning m) st.
Proof.
  unfold node_port_of, create_service_record.
  destruct (spec_ports svc) as [|[p|] rest]; [eauto | | eauto].
  destruct (p =? 0); [eauto | discriminate].
Qed.

Lemma remove_service_record_noop :
  services_dir st !! record_filename svc = None -> remove_service_record svc st = st.
Proof. unfold remove_service_record, record_filename. now intros ->. Qed.

Lemma remove_service_record_changed :
  services_dir st !! record_filename svc <> None ->
  remove_service_record svc st =
  emit (LogInfo (MsgRemovedService (record_filename svc) (service_key svc)))
    (mkState (hosts_file st) (delete (record_filename svc) (services_dir st))
             (managed_files st ∖ {[record_filename svc]}) (managed_hosts st) true
             (hostname_map st)
             (release (record_filename svc) (service_key svc) (service_name_map st))
             (trace st)).
Proof.
  unfold remove_service_record, record_filename.
  destruct (services_dir st !! _); [reflexivity | congruence].
Qed.

End ServiceRecords.

(** ** Dispatch *)

Section Dispatch.

Variables (svc : Service) (st : State).

Lemma should_advertise_ingress :
  should_advertise svc = true -> spec_type svc = "LoadBalancer" -> status_ingress svc <> [].
Proof.
  unfold should_advertise. intros H Hty. rewrite Hty in H. cbn in H.
  destruct (status_ingress svc); [discriminate | discriminate].
Qed.

Lemma reconcile_upsert (ev : string) :
  is_upsert ev = true -> should_advertise svc = true ->
  reconcile ev svc st = create_avahi_advertisement svc st.
Proof. unfold reconcile, is_upsert. now intros -> ->. Qed.

Lemma reconcile_withdraw (ev : string) :
  is_upsert ev = true -> should_advertise svc = false ->
  reconcile ev svc st = remove_avahi_advertisement svc st.
Proof. unfold reconcile, is_upsert. now intros -> ->. Qed.

Lemma reconcile_deleted : reconcile "DELETED" svc st = remove_avahi_advertisement svc st.
Proof. reflexivity. Qed.

Lemma create_as_host :
  spec_type svc = "LoadBalancer" ->
  create_avahi_advertisement svc st = create_host_record svc st.
Proof. unfold create_avahi_advertisement. now intros ->. Qed.

Lemma create_as_service :
  spec_type svc = "NodePort" ->
  create_avahi_advertisement svc st = create_service_record svc st.
Proof. unfold create_avahi_advertisement. now intros ->. Qed.

Lemma remove_as_host :
  spec_type svc = "LoadBalancer" ->
  remove_avahi_advertisement svc st = remove_host_record svc st.
Proof. unfold remove_avahi_advertisement. now intros ->. Qed.

Lemma remove_as_service :
  spec_type svc = "NodePort" ->
  remove_avahi_advertisement svc st = remove_service_record svc st.
Proof. unfold remove_avahi_advertisement. now intros ->. Qed.

End Dispatch.

(** * The conflict law *)

Section ConflictLaw.

(** Distinct services have distinct keys, namespaces being free of slashes. *)
Lemma slash_join_inj (a b x y : string) :
  no_slash a = true -> no_slash b = true ->
  a +:+ "/" +:+ x = b +:+ "/" +:+ y -> a = b /\ x = y.
Proof.
  unfold no_slash. revert b.
  induction a as [|c a IH]; intros [|d b] Ha Hb E.
  - now inversion E.
  - rewrite str_in_char_cons in Hb. inversion E; subst d.
    rewrite Ascii.eqb_refl in Hb. discriminate.
  - rewrite str_in_char_cons in Ha. inversion E; subst c.
    rewrite Ascii.eqb_refl in Ha. discriminate.
  - rewrite str_in_char_cons, negb_orb in Ha, Hb.
    apply andb_true_iff in Ha as [_ Ha]. apply andb_true_iff in Hb as [_ Hb].
    rewrite !append_cons in E. inversion E; subst d.
    destruct (IH b Ha Hb) as [-> ->]; auto.
Qed.

Lemma service_key_inj (s1 s2 : Service) :
  no_slash (metadata_namespace s1) = true -> no_slash (metadata_namespace s2) = true ->
  service_key s1 = service_key s2 ->
  metadata_namespace s1 = metadata_namespace s2 /\ metadata_name s1 = metadata_name s2.
Proof. unfold service_key. apply slash_join_inj. Qed.





End ConflictLaw.

Lemma plain_entry_one_line (svc : Service) :
  plain_entry svc = true -> one_line_entry svc = true.
Proof.
  unfold plain_entry. intros H.
  apply andb_true_iff in H as [H _]. apply andb_true_iff in H as [H _].
  now apply andb_true_iff in H as [H _].
Qed.




(** * Releasing a claim *)

Section Release.

Lemma release_lookup (name owner : string) (m : gmap string string) (n : string) :
  release name owner m !! n = m !! n
  \/ (n = name /\ m !! n = Some owner /\ release name owner m !! n = None).
Proof.
  unfold release. destruct (m !! name) as [holder|] eqn:Hm; [| now left].
  destruct (String.eqb_spec holder owner) as [-> | Hne]; [| now left].
  destruct (decide (n = name)) as [-> | Hn].
  - right. now rewrite lookup_delete_eq.
  - left. now apply lookup_delete_ne.
Qed.

Lemma release_other (name owner holder : string) (m : gmap string string) (n : string) :
  m !! n = Some holder -> holder <> owner -> release name owner m !! n = Some holder.
Proof.
  intros Hm Hne. destruct (release_lookup name owner m n) as [-> | (_ & Ho & _)];
    [exact Hm | congruence].
Qed.

Lemma remove_host_record_map (svc : Service) (st : State) :
  hostname_map (remove_host_record svc st) = hostname_map st
  \/ hostname_map (remove_host_record svc st) =
     release (hostname_fqdn svc) (service_key svc) (hostname_map st).
Proof.
  unfold remove_host_record. destruct (hosts_file st); [| now left].
  destruct (_ <? _)%nat; [now right | now left].
Qed.

Lemma remove_service_record_map (svc : Service) (st : State) :
  service_name_map (remove_service_record svc st) = service_name_map st
  \/ service_name_map (remove_service_record svc st) =
     release (record_filename svc) (service_key svc) (service_name_map st).
Proof.
  unfold remove_service_record. fold (record_filename svc).
  destruct (services_dir st !! _); [now right | now left].
Qed.

End Release.

(** C6.  A removal gives up a name only when the removed service is its
    current holder: a name held by another owner stays with that owner, in the
    hostname map and in the service-name map, and an entry that did change was
    the removed service's own claim on the name it computes. *)
Theorem release_only_by_holder (svc : Service) (st : State) (name owner : string) :
  (hostname_map st !! name = Some owner -> owner <> service_key svc ->
   hostname_map (remove_host_record svc st) !! name = Some owner)
  /\ (service_name_map st !! name = Some owner -> owner <> service_key svc ->
      service_name_map (remove_service_record svc st) !! name = Some owner)
  /\ (hostname_map (remove_host_record svc st) !! name <> hostname_map st !! name ->
      name = hostname_fqdn svc /\ hostname_map st !! name = Some (service_key svc)
      /\ hostname_map (remove_host_record svc st) !! name = None)
  /\ (service_name_map (remove_service_record svc st) !! name <> service_name_map st !! name ->
      name = record_filename svc /\ service_name_map st !! name = Some (service_key svc)
      /\ service_name_map (remove_service_record svc st) !! name = None).
Proof.
  split; [| split; [| split]].
  - intros Hm Hne. destruct (remove_host_record_map svc st) as [-> | ->];
      [exact Hm | now apply release_other].
  - intros Hm Hne. destruct (remove_service_record_map svc st) as [-> | ->];
      [exact Hm | now apply release_other].
  - intros Hch. destruct (remove_host_record_map svc st) as [E | E]; rewrite E in *;
      [congruence |].
    destruct (release_lookup (hostname_fqdn svc) (service_key svc) (hostname_map st) name)
      as [E' | H]; [congruence | exact H].
  - intros Hch. destruct (remove_service_record_map svc st) as [E | E]; rewrite E in *;
      [congruence |].
    destruct (release_lookup (record_filename svc) (service_key svc) (service_name_map st) name)
      as [E' | H]; [congruence | exact H].
Qed.

(** A displaced service is removed and the newer claim stays; a holder is
    removed and its own claim goes. *)
Lemma release_only_by_holder_witness :
  hostname_map (remove_host_record shop displaced_host_state) !! "shop.local"
    = Some "web/shop2"
  /\ service_name_map (remove_service_record grafana displaced_service_state)
       !! "k8s-dashboards.service" = Some "ops/board"
  /\ hostname_map (reconcile "ADDED" shop empty_state) !! "shop.local" = Some "web/shop"
  /\ service_name_map (reconcile "ADDED" grafana empty_state) !! "k8s-dashboards.service"
       = Some "tools/grafana".
Proof.
  split; [| split; [| split]].
  - apply (proj1 (release_only_by_holder shop displaced_host_state
                    "shop.local" "web/shop2"));
      [vm_compute; reflexivity | discriminate].
  - apply (proj1 (proj2 (release_only_by_holder grafana displaced_service_state
                           "k8s-dashboards.service" "ops/board")));
      [vm_compute; reflexivity | discriminate].
  - apply (proj1 (proj2 (proj2 (release_only_by_holder shop
             (reconcile "ADDED" shop empty_state) "shop.local" "")))).
    vm_compute. discriminate.
  - apply (proj2 (proj2 (proj2 (release_only_by_holder grafana
             (reconcile "ADDED" grafana empty_state) "k8s-dashboards.service" "")))).
    vm_compute. discriminate.
Defined.

(** * The reload flag *)

Section ReloadFlag.

Lemma flag_covers_refl (st : State) : flag_covers st st.
Proof. right. auto. Qed.

Lemma flag_covers_emit (e : effect) (st : State) : flag_covers st (emit e st).
Proof. right. auto. Qed.

Lemma flag_covers_create_host_record (svc : Service) (st : State) :
  flag_covers st (create_host_record svc st).
Proof.
  destruct (status_ingress svc) as [|first rest] eqn:Hing.
  - rewrite create_host_record_no_ip by exact Hing. apply flag_covers_emit.
  - left. apply (create_host_record_fields svc st). congruence.
Qed.

Lemma flag_covers_create_service_record (svc : Service) (st : State) :
  flag_covers st (create_service_record svc st).
Proof.
  destruct (node_port_of svc) as [port|] eqn:Hp.
  - left. apply (create_service_record_fields svc st port Hp).
  - destruct (create_service_record_skipped svc st Hp) as [m ->]. apply flag_covers_emit.
Qed.

Lemma flag_covers_remove_host_record (svc : Service) (st : State) :
  flag_covers st (remove_host_record svc st).
Proof.
  unfold remove_host_record. destruct (hosts_file st); [| apply flag_covers_refl].
  destruct (_ <? _)%nat; [now left | apply flag_covers_refl].
Qed.

Lemma flag_covers_remove_service_record (svc : Service) (st : State) :
  flag_covers st (remove_service_record svc st).
Proof.
  unfold remove_service_record.
  destruct (services_dir st !! _); [now left | apply flag_covers_refl].
Qed.

Lemma flag_covers_reconcile (ev : string) (svc : Service) (st : State) :
  flag_covers st (reconcile ev svc st).
Proof.
  unfold reconcile, create_avahi_advertisement, remove_avahi_advertisement.
  repeat match goal with
         | |- context [if ?b then _ else _] => destruct b
         end;
    auto using flag_covers_refl, flag_covers_create_host_record,
      flag_covers_create_service_record, flag_covers_remove_host_record,
      flag_covers_remove_service_record.
Qed.

Lemma reload_clear (o : reload_outcome) (st : State) :
  needs_reload st = false -> reload_avahi_daemon o st = st.
Proof. unfold reload_avahi_daemon. now intros ->. Qed.

Lemma reload_attempt (o : reload_outcome) (st : State) :
  needs_reload st = true ->
  exists m, trace (reload_avahi_daemon o st) = trace st ++ [RunReload; m]
            /\ is_reload m = false /\ is_sleep m = false /\ is_subscribe m = false.
Proof.
  unfold reload_avahi_daemon. intros ->. cbn [negb].
  destruct o as [rc stderr | |]; [destruct (rc =? 0) |..];
    eexists; cbn; rewrite <- app_assoc; repeat split; reflexivity.
Qed.

Lemma reload_flag_after (o : reload_outcome) (st : State) :
  needs_reload (reload_avahi_daemon o st) =
  needs_reload st
  && negb match o with
          | Completed rc _ => rc =? 0
          | _ => false
          end.
Proof.
  unfold reload_avahi_daemon. destruct (needs_reload st) eqn:Hn; cbn [negb andb].
  - destruct o as [rc stderr | |]; [destruct (rc =? 0) |..]; cbn; now rewrite ?Hn.
  - exact Hn.
Qed.

End ReloadFlag.

(** C7.  Whenever reconciling an event changes the hosts file or the services
    directory the reload flag is set afterwards, and reconciling never clears
    it.  The flush clears the flag only when the reload command returned 0; on
    a nonzero return code, a timeout or any other exception the flag stays set
    and the next flush runs the command again; a flush with the flag clear
    runs nothing and changes nothing. *)
Theorem reload_flag_law :
  (forall ev svc st,
      hosts_file (reconcile ev svc st) <> hosts_file st
      \/ services_dir (reconcile ev svc st) <> services_dir st ->
      needs_reload (reconcile ev svc st) = true)
  /\ (forall ev svc st,
         needs_reload st = true -> needs_reload (reconcile ev svc st) = true)
  /\ (forall o st,
         needs_reload st = true -> needs_reload (reload_avahi_daemon o st) = false ->
         exists stderr, o = Completed 0 stderr)
  /\ (forall stderr st, needs_reload (reload_avahi_daemon (Completed 0 stderr) st) = false)
  /\ (forall o st,
         needs_reload st = true -> (forall stderr, o <> Completed 0 stderr) ->
         needs_reload (reload_avahi_daemon o st) = true)
  /\ (forall o st,
         needs_reload st = true ->
         exists m, trace (reload_avahi_daemon o st) = trace st ++ [RunReload; m]
                   /\ is_reload m = false)
  /\ (forall o st, needs_reload st = false -> reload_avahi_daemon o st = st).
Proof.
  repeat apply conj.
  - intros ev svc st Hch.
    destruct (flag_covers_reconcile ev svc st) as [H | (Hh & Hd & _)]; [exact H |].
    destruct Hch; congruence.
  - intros ev svc st Hn.
    destruct (flag_covers_reconcile ev svc st) as [H | (_ & _ & H)]; congruence.
  - intros o st Hn Hc. rewrite reload_flag_after, Hn in Hc. cbn [andb] in Hc.
    destruct o as [rc stderr | |]; try discriminate.
    apply negb_false_iff, Z.eqb_eq in Hc. subst rc. now exists stderr.
  - intros stderr st. rewrite reload_flag_after. cbn. apply andb_false_r.
  - intros o st Hn Hne. rewrite reload_flag_after, Hn. cbn [andb].
    destruct o as [rc stderr | |]; try reflexivity.
    destruct (Z.eqb_spec rc 0) as [-> | _]; [now elim (Hne stderr) | reflexivity].
  - intros o st Hn. destruct (reload_attempt o st Hn) as (m & T & Hm & _). eauto.
  - intros o st. apply reload_clear.
Qed.

(** The first scenario's mutation sets the flag; a timed-out reload keeps it;
    a successful one clears it; a clear flag runs nothing. *)
Lemma reload_flag_law_witness :
  needs_reload (reconcile "ADDED" shop empty_state) = true
  /\ needs_reload (reload_avahi_daemon TimeoutExpired
                     (reconcile "ADDED" shop empty_state)) = true
  /\ needs_reload (reload_avahi_daemon (Completed 1 "failed")
                     (reconcile "ADDED" shop empty_state)) = true
  /\ reload_avahi_daemon RunFailed empty_state = empty_state.
Proof.
  destruct reload_flag_law as (Hset & _ & _ & _ & Hkeep & _ & Hnone).
  split; [| split; [| split]].
  - apply Hset. left. vm_compute. discriminate.
  - apply Hkeep; [vm_compute; reflexivity | discriminate].
  - apply Hkeep; [vm_compute; reflexivity | discriminate].
  - apply Hnone. reflexivity.
Defined.

(** * The watch loop *)

Section WatchLoop.

Lemma quiet_step_refl (st : State) : quiet_step st st.
Proof. exists []. now rewrite app_nil_r. Qed.

Lemma quiet_step_trans (a b c : State) : quiet_step a b -> quiet_step b c -> quiet_step a c.
Proof.
  intros (t1 & E1 & F1) (t2 & E2 & F2). exists (t1 ++ t2). split.
  - now rewrite E2, E1, <- app_assoc.
  - now apply List.Forall_app.
Qed.

Lemma quiet_step_trace (st st' : State) (tail : list effect) :
  trace st' = trace st ++ tail ->
  Forall (fun e => is_sleep e = false /\ is_subscribe e = false) tail ->
  quiet_step st st'.
Proof. intros E F. now exists tail. Qed.

Lemma conflict_of_quiet (holder : option string) (key : string) (report : string -> message) :
  Forall (fun e => is_sleep e = false /\ is_subscribe e = false) (conflict_of holder key report).
Proof.
  unfold conflict_of. destruct holder as [existing|]; [| constructor].
  destruct (negb _); repeat constructor.
Qed.

Lemma quiet_create_host_record (svc : Service) (st : State) :
  quiet_step st (create_host_record svc st).
Proof.
  destruct (status_ingress svc) as [|first rest] eqn:Hing.
  - rewrite create_host_record_no_ip by exact Hing.
    eapply quiet_step_trace; [apply trace_emit | repeat constructor].
  - destruct (create_host_record_fields svc st) as (_ & _ & _ & _ & _ & T); [congruence |].
    eapply quiet_step_trace; [exact T |].
    apply List.Forall_app. split; [apply conflict_of_quiet | repeat constructor].
Qed.

Lemma quiet_create_service_record (svc : Service) (st : State) :
  quiet_step st (create_service_record svc st).
Proof.
  destruct (node_port_of svc) as [port|] eqn:Hp.
  - destruct (create_service_record_fields svc st port Hp) as (_ & _ & _ & _ & _ & T).
    eapply quiet_step_trace; [exact T |].
    apply List.Forall_app. split; [apply conflict_of_quiet | repeat constructor].
  - destruct (create_service_record_skipped svc st Hp) as [m ->].
    eapply quiet_step_trace; [apply trace_emit | repeat constructor].
Qed.

Lemma quiet_remove_host_record (svc : Service) (st : State) :
  quiet_step st (remove_host_record svc st).
Proof.
  unfold remove_host_record. destruct (hosts_file st); [| apply quiet_step_refl].
  destruct (_ <? _)%nat; [| apply quiet_step_refl].
  eapply quiet_step_trace; [cbn; reflexivity | repeat constructor].
Qed.

Lemma quiet_remove_service_record (svc : Service) (st : State) :
  quiet_step st (remove_service_record svc st).
Proof.
  unfold remove_service_record. destruct (services_dir st !! _); [| apply quiet_step_refl].
  eapply quiet_step_trace; [cbn; reflexivity | repeat constructor].
Qed.

Lemma quiet_reconcile (ev : string) (svc : Service) (st : State) :
  quiet_step st (reconcile ev svc st).
Proof.
  unfold reconcile, create_avahi_advertisement, remove_avahi_advertisement.
  repeat match goal with
         | |- context [if ?b then _ else _] => destruct b
         end;
    auto using quiet_step_refl, quiet_create_host_record, quiet_create_service_record,
      quiet_remove_host_record, quiet_remove_service_record.
Qed.

Lemma quiet_reload (o : reload_outcome) (st : State) :
  quiet_step st (reload_avahi_daemon o st).
Proof.
  destruct (needs_reload st) eqn:Hn.
  - destruct (reload_attempt o st Hn) as (m & T & _ & Hs & Hb).
    eapply quiet_step_trace; [exact T |].
    repeat constructor; assumption.
  - rewrite reload_clear by exact Hn. apply quiet_step_refl.
Qed.

Lemma quiet_handle_event (st : State) (event : Event) : quiet_step st (handle_event st event).
Proof.
  unfold handle_event. eapply quiet_step_trans; [apply quiet_reconcile | apply quiet_reload].
Qed.

Lemma quiet_events (events : list Event) (st : State) :
  quiet_step st (fold_left handle_event events st).
Proof.
  revert st. induction events as [|event events IH]; intros st; [apply quiet_step_refl |].
  cbn [fold_left]. eapply quiet_step_trans; [apply quiet_handle_event | apply IH].
Qed.

(** Handling the events of a subscription adds one [Subscribe], first, and
    no [Sleep]. *)
Lemma after_events_trace (sub : Subscription) (st : State) :
  exists tail,
    trace (after_events sub st) = trace st ++ Subscribe :: tail
    /\ Forall (fun e => is_sleep e = false /\ is_subscribe e = false) tail.
Proof.
  destruct (quiet_events (sub_events sub) (emit Subscribe st)) as (tail & T & F).
  exists tail. split; [| exact F].
  unfold after_events. rewrite T, trace_emit, <- app_assoc. reflexivity.
Qed.

Lemma filter_quiet (f : effect -> bool) (tail : list effect) :
  (forall e, f e = true -> is_sleep e = true \/ is_subscribe e = true) ->
  Forall (fun e => is_sleep e = false /\ is_subscribe e = false) tail ->
  List.filter f tail = [].
Proof.
  intros Hf. induction 1 as [|e tail [Hs Hb] _ IH]; [reflexivity |].
  cbn [List.filter]. destruct (f e) eqn:E; [| exact IH].
  destruct (Hf e E); congruence.
Qed.

Lemma watch_iteration_ctl (sub : Subscription) (st : State) :
  fst (watch_iteration sub st) = Exit <-> sub_end sub = Cancelled.
Proof.
  unfold watch_iteration. destruct (sub_end sub) as [| status | |];
    [| destruct (status =? 410) | |]; cbn; split; congruence.
Qed.

Lemma watch_loop_ctl (subs : list Subscription) (st : State) :
  Forall (fun sub => sub_end sub <> Cancelled) subs ->
  fst (watch_loop subs st) = Continue.
Proof.
  intros H. revert st. induction H as [|sub subs Hsub _ IH]; intros st; [reflexivity |].
  cbn [watch_loop].
  destruct (watch_iteration sub st) as [[|] st'] eqn:E; [apply IH |].
  exfalso. apply Hsub, (watch_iteration_ctl sub st). now rewrite E.
Qed.

End WatchLoop.

Lemma watch_iteration_trace (sub : Subscription) (st : State) :
  trace (snd (watch_iteration sub st)) =
  trace (after_events sub st) ++ ending_effects (sub_end sub).
Proof.
  unfold watch_iteration. fold (after_events sub st).
  destruct (sub_end sub) as [| status | |]; [| destruct (status =? 410) eqn:E | |];
    cbn [snd ending_effects]; rewrite ?E, ?trace_emit, <- ?app_assoc, ?app_nil_r;
    reflexivity.
Qed.

Lemma sleeps_after_events (sub : Subscription) (st : State) :
  List.filter is_sleep (trace (after_events sub st)) = List.filter is_sleep (trace st).
Proof.
  destruct (after_events_trace sub st) as (tail & T & F).
  rewrite T, List.filter_app. cbn [List.filter is_sleep].
  rewrite (filter_quiet is_sleep tail); [apply app_nil_r | auto | exact F].
Qed.

(** Every iteration opens with a call of [w.stream], and makes no other. *)
Lemma watch_iteration_subscribes (sub : Subscription) (st : State) :
  exists tail,
    trace (snd (watch_iteration sub st)) = trace st ++ Subscribe :: tail
    /\ List.filter is_subscribe tail = [].
Proof.
  destruct (after_events_trace sub st) as (tail & T & F).
  exists (tail ++ ending_effects (sub_end sub)). split.
  - rewrite watch_iteration_trace, T, <- app_assoc. reflexivity.
  - rewrite List.filter_app, (filter_quiet is_subscribe tail); [| auto | exact F].
    destruct (sub_end sub) as [| status | |]; [| destruct (status =? 410) eqn:E | |];
      cbn [ending_effects]; rewrite ?E; reflexivity.
Qed.

Lemma watch_iteration_continues (sub : Subscription) (st : State) :
  sub_end sub <> Cancelled -> fst (watch_iteration sub st) = Continue.
Proof.
  intros H. destruct (fst (watch_iteration sub st)) eqn:E; [reflexivity |].
  now apply watch_iteration_ctl in E.
Qed.

(** After a pass that was not cancelled the loop goes on, from the state
    that pass left. *)
Lemma watch_loop_next (sub : Subscription) (rest : list Subscription) (st : State) :
  sub_end sub <> Cancelled ->
  watch_loop (sub :: rest) st = watch_loop rest (snd (watch_iteration sub st)).
Proof.
  intros H. cbn [watch_loop].
  pose proof (watch_iteration_continues sub st H) as E.
  destruct (watch_iteration sub st) as [ctl st']. cbn [fst] in E. subst ctl.
  reflexivity.
Qed.

Lemma watch_loop_run (a b : list Subscription) (st : State) :
  Forall (fun sub => sub_end sub <> Cancelled) a ->
  watch_loop (a ++ b) st = watch_loop b (snd (watch_loop a st)).
Proof.
  intros H. revert st. induction H as [|sub a Hsub _ IH]; intros st; [reflexivity |].
  rewrite <- app_comm_cons, !watch_loop_next by exact Hsub. apply IH.
Qed.

Lemma watch_loop_trace (subs : list Subscription) (st : State) :
  exists tail, trace (snd (watch_loop subs st)) = trace st ++ tail.
Proof.
  revert st. induction subs as [|sub subs IH]; intros st.
  - exists []. cbn. now rewrite app_nil_r.
  - destruct (watch_iteration_subscribes sub st) as (t1 & T1 & _).
    cbn [watch_loop]. destruct (watch_iteration sub st) as [[|] st'] eqn:E;
      cbn [snd] in T1.
    + destruct (IH st') as (t2 & T2). exists ((Subscribe :: t1) ++ t2).
      now rewrite T2, T1, <- app_assoc.
    + exists (Subscribe :: t1). exact T1.
Qed.

(** The loop calls [w.stream] once for every pass. *)
Lemma watch_loop_subscribes (subs : list Subscription) (st : State) :
  Forall (fun sub => sub_end sub <> Cancelled) subs ->
  List.filter is_subscribe (trace (snd (watch_loop subs st))) =
  List.filter is_subscribe (trace st) ++ List.repeat Subscribe (length subs).
Proof.
  intros H. revert st. induction H as [|sub subs Hsub _ IH]; intros st.
  - cbn. now rewrite app_nil_r.
  - rewrite watch_loop_next, IH by exact Hsub.
    destruct (watch_iteration_subscribes sub st) as (tail & T & F).
    rewrite T, List.filter_app. cbn [List.filter is_subscribe].
    rewrite F, <- app_assoc. reflexivity.
Qed.

(** The loop sleeps after the passes that end on an error other than an
    expired position, and nowhere else. *)
Lemma watch_loop_sleeps (subs : list Subscription) (st : State) :
  Forall (fun sub => sub_end sub <> Cancelled) subs ->
  List.filter is_sleep (trace (snd (watch_loop subs st))) =
  List.filter is_sleep (trace st) ++ flat_map pass_sleeps subs.
Proof.
  intros H. revert st. induction H as [|sub subs Hsub _ IH]; intros st.
  - cbn. now rewrite app_nil_r.
  - rewrite watch_loop_next, IH by exact Hsub.
    rewrite watch_iteration_trace, List.filter_app, sleeps_after_events.
    cbn [flat_map]. fold (pass_sleeps sub). now rewrite <- app_assoc.
Qed.

(** What follows the end of a pass, in the trace of the whole run, is the
    next call of [w.stream]. *)
Lemma watch_loop_resubscribes (pre rest : list Subscription) (sub next : Subscription)
    (st : State) :
  Forall (fun sub => sub_end sub <> Cancelled) pre ->
  sub_end sub <> Cancelled ->
  exists after,
    trace (snd (watch_loop (pre ++ sub :: next :: rest) st)) =
    trace (after_events sub (snd (watch_loop pre st)))
    ++ ending_effects (sub_end sub) ++ Subscribe :: after.
Proof.
  intros Hpre Hsub. rewrite watch_loop_run, watch_loop_next by assumption.
  set (st1 := snd (watch_loop pre st)).
  pose proof (watch_iteration_trace sub st1) as T1.
  set (st2 := snd (watch_iteration sub st1)) in *.
  destruct (watch_iteration_subscribes next st2) as (t & T2 & _).
  destruct (watch_loop_trace rest (snd (watch_iteration next st2))) as (t' & T3).
  cbn [watch_loop].
  destruct (watch_iteration next st2) as [[|] st3] eqn:E; cbn [snd] in *.
  - exists (t ++ t'). rewrite T3, T2, T1, <- !app_assoc. reflexivity.
  - exists t. rewrite T2, T1, <- !app_assoc. reflexivity.
Qed.

Lemma filter_trace_emit_log (f : effect -> bool) (e : effect) (st : State) :
  f e = false -> List.filter f (trace (emit e st)) = List.filter f (trace st).
Proof.
  intros H. rewrite trace_emit, List.filter_app. cbn [List.filter].
  rewrite H. apply app_nil_r.
Qed.

(** C9.  The watch loop leaves [watch_services] only when cancelled from
    outside: against any run of passes none of which is cancelled it is back
    at the head of the loop, each pass having started from the state the
    passes before it left.  Over such a run the loop subscribes once for
    every pass, and it sleeps once, 5 seconds, for every pass that ends on an
    API status other than 410 or on any other exception, and not at all for
    a pass that ends on status 410 or is closed.  In the trace of the run,
    what follows the events of a pass that ends on status 410 is the warning
    and at once the next subscription; what follows the events of a pass that
    ends on another error is the error line, the sleep of 5 seconds, and then
    the next subscription.  The same is stated for the single iteration. *)
Theorem watch_loop_recovers :
  (forall subs st,
      Forall (fun sub => sub_end sub <> Cancelled) subs ->
      fst (watch_services subs st) = Continue)
  /\ (forall sub st,
         sub_end sub = ApiException 410 ->
         fst (watch_iteration sub st) = Continue
         /\ trace (snd (watch_iteration sub st)) =
              trace (after_events sub st) ++ [LogWarning MsgWatchExpired]
         /\ List.filter is_sleep (trace (snd (watch_iteration sub st))) =
              List.filter is_sleep (trace st))
  /\ (forall sub st status,
         sub_end sub = ApiException status -> status <> 410 ->
         fst (watch_iteration sub st) = Continue
         /\ trace (snd (watch_iteration sub st)) =
              trace (after_events sub st) ++ [LogError (MsgApiException status); Sleep 5]
         /\ List.filter is_sleep (trace (snd (watch_iteration sub st))) =
              List.filter is_sleep (trace st) ++ [Sleep 5])
  /\ (forall sub st,
         sub_end sub = OtherException ->
         fst (watch_iteration sub st) = Continue
         /\ trace (snd (watch_iteration sub st)) =
              trace (after_events sub st) ++ [LogError MsgUnexpected; Sleep 5]
         /\ List.filter is_sleep (trace (snd (watch_iteration sub st))) =
              List.filter is_sleep (trace st) ++ [Sleep 5])
  /\ (forall sub st,
         exists tail,
           trace (snd (watch_iteration sub st)) = trace st ++ Subscribe :: tail
           /\ List.filter is_subscribe tail = [])
  /\ (forall pre sub st,
         Forall (fun sub => sub_end sub <> Cancelled) pre ->
         watch_services (pre ++ [sub]) st =
         watch_iteration sub (snd (watch_services pre st)))
  /\ (forall subs st,
         Forall (fun sub => sub_end sub <> Cancelled) subs ->
         List.filter is_subscribe (trace (snd (watch_services subs st))) =
         List.filter is_subscribe (trace st) ++ List.repeat Subscribe (length subs))
  /\ (forall subs st,
         Forall (fun sub => sub_end sub <> Cancelled) subs ->
         List.filter is_sleep (trace (snd (watch_services subs st))) =
         List.filter is_sleep (trace st) ++ flat_map pass_sleeps subs)
  /\ (forall sub, sub_end sub = ApiException 410 -> pass_sleeps sub = [])
  /\ (forall sub, sub_end sub = StreamClosed -> pass_sleeps sub = [])
  /\ (forall sub status,
         sub_end sub = ApiException status -> status <> 410 -> pass_sleeps sub = [Sleep 5])
  /\ (forall sub, sub_end sub = OtherException -> pass_sleeps sub = [Sleep 5])
  /\ (forall pre sub next rest st,
         Forall (fun sub => sub_end sub <> Cancelled) pre ->
         sub_end sub = ApiException 410 ->
         exists after,
           trace (snd (watch_services (pre ++ sub :: next :: rest) st)) =
           trace (after_events sub (snd (watch_services pre st)))
           ++ LogWarning MsgWatchExpired :: Subscribe :: after)
  /\ (forall pre sub next rest st status,
         Forall (fun sub => sub_end sub <> Cancelled) pre ->
         sub_end sub = ApiException status -> status <> 410 ->
         exists after,
           trace (snd (watch_services (pre ++ sub :: next :: rest) st)) =
           trace (after_events sub (snd (watch_services pre st)))
           ++ LogError (MsgApiException status) :: Sleep 5 :: Subscribe :: after)
  /\ (forall pre sub next rest st,
         Forall (fun sub => sub_end sub <> Cancelled) pre ->
         sub_end sub = OtherException ->
         exists after,
           trace (snd (watch_services (pre ++ sub :: next :: rest) st)) =
           trace (after_events sub (snd (watch_services pre st)))
           ++ LogError MsgUnexpected :: Sleep 5 :: Subscribe :: after).
Proof.
  repeat apply conj.
  - intros subs st H. unfold watch_services. now apply watch_loop_ctl.
  - intros sub st He. split; [apply watch_iteration_continues; congruence |].
    rewrite watch_iteration_trace, He. cbn [ending_effects Z.eqb Pos.eqb].
    split; [reflexivity |].
    rewrite List.filter_app, sleeps_after_events. apply app_nil_r.
  - intros sub st status He Hs. split; [apply watch_iteration_continues; congruence |].
    rewrite watch_iteration_trace, He. cbn [ending_effects].
    destruct (Z.eqb_spec status 410) as [? | _]; [contradiction |].
    split; [reflexivity |].
    rewrite List.filter_app, sleeps_after_events. reflexivity.
  - intros sub st He. split; [apply watch_iteration_continues; congruence |].
    rewrite watch_iteration_trace, He. cbn [ending_effects].
    split; [reflexivity |].
    rewrite List.filter_app, sleeps_after_events. reflexivity.
  - apply watch_iteration_subscribes.
  - intros pre sub st H. unfold watch_services.
    rewrite watch_loop_run by exact H. cbn [watch_loop].
    now destruct (watch_iteration sub _) as [[|] st'].
  - intros subs st H. unfold watch_services.
    rewrite watch_loop_subscribes by exact H. f_equal.
    now apply filter_trace_emit_log.
  - intros subs st H. unfold watch_services.
    rewrite watch_loop_sleeps by exact H. f_equal.
    now apply filter_trace_emit_log.
  - intros sub He. unfold pass_sleeps. now rewrite He.
  - intros sub He. unfold pass_sleeps. now rewrite He.
  - intros sub status He Hs. unfold pass_sleeps. rewrite He. cbn [ending_effects].
    now destruct (Z.eqb_spec status 410).
  - intros sub He. unfold pass_sleeps. now rewrite He.
  - intros pre sub next rest st Hpre He. unfold watch_services.
    destruct (watch_loop_resubscribes pre rest sub next
                (emit (LogInfo MsgWatchStart) st) Hpre) as (after & T); [congruence |].
    exists after. rewrite T, He. reflexivity.
  - intros pre sub next rest st status Hpre He Hs. unfold watch_services.
    destruct (watch_loop_resubscribes pre rest sub next
                (emit (LogInfo MsgWatchStart) st) Hpre) as (after & T); [congruence |].
    exists after. rewrite T, He. cbn [ending_effects].
    now destruct (Z.eqb_spec status 410).
  - intros pre sub next rest st Hpre He. unfold watch_services.
    destruct (watch_loop_resubscribes pre rest sub next
                (emit (LogInfo MsgWatchStart) st) Hpre) as (after & T); [congruence |].
    exists after. rewrite T, He. reflexivity.
Qed.

(** A stale pass, a failed pass and a broken pass in a row: the loop is still
    running, it subscribed three times and slept twice, 5 seconds each, after
    the second and the third pass; after the stale pass, which handled the
    creation of [web/shop], the warning is followed at once by the next
    subscription. *)
Lemma watch_loop_recovers_witness :
  fst (watch_services [stale_pass; failed_pass; broken_pass] empty_state) = Continue
  /\ List.filter is_subscribe
       (trace (snd (watch_services [stale_pass; failed_pass; broken_pass] empty_state)))
     = [Subscribe; Subscribe; Subscribe]
  /\ List.filter is_sleep
       (trace (snd (watch_services [stale_pass; failed_pass; broken_pass] empty_state)))
     = [Sleep 5; Sleep 5]
  /\ (exists after,
         trace (snd (watch_services [stale_pass; failed_pass; broken_pass] empty_state)) =
         trace (after_events stale_pass (snd (watch_services [] empty_state)))
         ++ LogWarning MsgWatchExpired :: Subscribe :: after)
  /\ List.filter is_sleep (trace (snd (watch_iteration stale_pass empty_state))) = []
  /\ List.filter is_sleep (trace (snd (watch_iteration failed_pass empty_state))) = [Sleep 5]
  /\ List.filter is_sleep (trace (snd (watch_iteration broken_pass empty_state))) = [Sleep 5].
Proof.
  destruct watch_loop_recovers
    as (Hrun & Hstale & Hfail & Hbroken & _ & _ & Hsubs & Hsleeps & _ & _ & _ & _
        & Hnext & _).
  assert (Hall : Forall (fun sub => sub_end sub <> Cancelled)
                   [stale_pass; failed_pass; broken_pass])
    by (repeat constructor; discriminate).
  split; [| split; [| split; [| split; [| split; [| split]]]]].
  - apply Hrun, Hall.
  - rewrite (Hsubs _ empty_state Hall). reflexivity.
  - rewrite (Hsleeps _ empty_state Hall). reflexivity.
  - apply (Hnext [] stale_pass failed_pass [broken_pass] empty_state);
      [constructor | reflexivity].
  - apply (Hstale stale_pass empty_state eq_refl).
  - apply (Hfail failed_pass empty_state 503 eq_refl). discriminate.
  - apply (Hbroken broken_pass empty_state eq_refl).
Defined.

(** * Removal *)

Section Removal.

Variables (svc : Service) (st : State).

Lemma removed_host_lines :
  host_lines_of (advertised_name svc) (remove_host_record svc st) = [].
Proof. unfold host_lines_of. rewrite remove_host_record_lines. apply prune_matches. Qed.


Lemma removed_service_file :
  services_dir (remove_service_record svc st) !! record_filename svc = None.
Proof.
  destruct (services_dir st !! record_filename svc) eqn:E.
  - rewrite remove_service_record_changed by congruence. apply lookup_delete_eq.
  - now rewrite remove_service_record_noop.
Qed.

End Removal.

(** C10.  A Deleted event for a service whose advertised name is by now held by
    another owner still removes the artifact under that name (every managed
    hosts line the pruning test matches, or the advertisement file) while the
    other owner's entry in the ownership map stays: the map then names an
    owner for an artifact that is gone. *)
Theorem removal_ignores_ownership (svc : Service) (st : State) (owner : string) :
  owner <> service_key svc ->
  (spec_type svc = "LoadBalancer" ->
   hostname_map st !! hostname_fqdn svc = Some owner ->
   host_lines_of (advertised_name svc) st <> [] ->
   host_lines_of (advertised_name svc) (reconcile "DELETED" svc st) = []
   /\ hosts_file (reconcile "DELETED" svc st) <> hosts_file st
   /\ hostname_map (reconcile "DELETED" svc st) !! hostname_fqdn svc = Some owner)
  /\
  (spec_type svc = "NodePort" ->
   service_name_map st !! record_filename svc = Some owner ->
   services_dir st !! record_filename svc <> None ->
   services_dir (reconcile "DELETED" svc st) !! record_filename svc = None
   /\ service_name_map (reconcile "DELETED" svc st) !! record_filename svc = Some owner).
Proof.
  intros Hne. rewrite reconcile_deleted. split.
  - intros Hty Hm Hlines. rewrite remove_as_host by exact Hty.
    split; [apply removed_host_lines | split].
    + intros Heq. apply Hlines.
      rewrite <- (removed_host_lines svc st).
      unfold host_lines_of, hosts_lines. now rewrite Heq.
    + destruct (remove_host_record_map svc st) as [-> | ->];
        [exact Hm | now apply release_other].
  - intros Hty Hm Hfile. rewrite remove_as_service by exact Hty.
    split; [apply removed_service_file |].
    destruct (remove_service_record_map svc st) as [-> | ->];
      [exact Hm | now apply release_other].
Qed.

(** [web/shop] is deleted after [web/shop2] took [shop.local] over: the line
    of [web/shop2] goes, its claim stays; likewise for the file that
    [ops/board] took over from [tools/grafana]. *)
Lemma removal_ignores_ownership_witness :
  (hosts_lines displaced_host_state =
     ["10.0.42.51 shop.local # Managed by k8s-avahi-advertiser (web/shop2)" +:+ nl]
   /\ host_lines_of "shop" (reconcile "DELETED" shop displaced_host_state) = []
   /\ hostname_map (reconcile "DELETED" shop displaced_host_state) !! "shop.local"
        = Some "web/shop2")
  /\ (services_dir (reconcile "DELETED" grafana displaced_service_state)
        !! "k8s-dashboards.service" = None
      /\ service_name_map (reconcile "DELETED" grafana displaced_service_state)
           !! "k8s-dashboards.service" = Some "ops/board").
Proof.
  split.
  - split; [vm_compute; reflexivity |].
    destruct (removal_ignores_ownership shop displaced_host_state "web/shop2"
                ltac:(discriminate)) as [H _].
    destruct H as (H1 & _ & H3);
      [reflexivity | vm_compute; reflexivity | vm_compute; discriminate |].
    split; [exact H1 | exact H3].
  - destruct (removal_ignores_ownership grafana displaced_service_state "ops/board"
                ltac:(discriminate)) as [_ H].
    apply H; [reflexivity | vm_compute; reflexivity | vm_compute; discriminate].
Defined.




(** * Pruning, the frame of the hosts file, and applying twice *)

Section HostsFile.

Variables (svc : Service) (st : State).

(** What the pruning comprehension keeps: the lines that lack the marker or
    in which the hostname does not occur anywhere. *)
Lemma prune_In (hostname line : string) (ls : list string) :
  In line (prune hostname ls) <->
  In line ls /\ (str_in MANAGED_HOSTS_MARKER line = false \/ str_in hostname line = false).
Proof.
  unfold prune. rewrite List.filter_In. unfold matches_host.
  rewrite negb_true_iff, andb_false_iff. reflexivity.
Qed.

(** The list handed to [writelines] keeps every unmanaged line, in order. *)
Lemma unmanaged_remove_host_record :
  unmanaged_lines (remove_host_record svc st) = unmanaged_lines st.
Proof. unfold unmanaged_lines. rewrite remove_host_record_lines. apply prune_unmanaged. Qed.

Lemma unmanaged_create_host_record :
  status_ingress svc <> [] -> hosts_terminated st = true -> one_line_entry svc = true ->
  unmanaged_lines (create_host_record svc st) = unmanaged_lines st.
Proof.
  intros Hing Hterm Hone. unfold unmanaged_lines.
  rewrite create_host_record_lines, List.filter_app, prune_unmanaged by assumption.
  cbn [List.filter]. unfold entry_for.
  pose proof (matches_host_entry (first_ip svc) (advertised_name svc) (service_key svc)) as Hm.
  apply andb_true_iff in Hm as [Hm _]. rewrite Hm. apply app_nil_r.
Qed.

Lemma create_service_record_idempotent :
  services_dir (create_service_record svc (create_service_record svc st)) =
  services_dir (create_service_record svc st).
Proof.
  destruct (node_port_of svc) as [port|] eqn:Hp.
  - destruct (create_service_record_fields svc st port Hp) as (D1 & _).
    destruct (create_service_record_fields svc (create_service_record svc st) port Hp)
      as (D2 & _).
    rewrite D2, D1. apply insert_insert_eq.
  - destruct (create_service_record_skipped svc (create_service_record svc st) Hp)
      as [m ->].
    reflexivity.
Qed.

(** A service of a supported kind that does not qualify has no artifact
    under the name it computes once its event is reconciled. *)
Lemma withdraw_removes_artifact (ev : string) :
  is_upsert ev = true -> should_advertise svc = false ->
  (spec_type svc = "LoadBalancer" ->
   host_lines_of (advertised_name svc) (reconcile ev svc st) = [])
  /\ (spec_type svc = "NodePort" ->
      services_dir (reconcile ev svc st) !! record_filename svc = None).
Proof.
  intros Hev Hadv. rewrite reconcile_withdraw by assumption. split; intros Hty.
  - rewrite remove_as_host by exact Hty. apply removed_host_lines.
  - rewrite remove_as_service by exact Hty. apply removed_service_file.
Qed.

(** For a service of any other kind no event changes anything. *)
Lemma reconcile_unsupported_kind (ev : string) :
  string_in_list (spec_type svc) ["LoadBalancer"; "NodePort"] = false ->
  reconcile ev svc st = st.
Proof.
  intros H. unfold reconcile, should_advertise, remove_avahi_advertisement.
  rewrite H. cbn [negb]. cbn in H. apply orb_false_iff in H as [H1 H2].
  apply orb_false_iff in H2 as [H2 _].
  rewrite H1, H2.
  destruct (string_in_list ev _); [reflexivity |]. destruct (String.eqb ev _); reflexivity.
Qed.

End HostsFile.

(** C1, at a failing input.  [web/shop] and [web/shop2] are both advertised,
    each under its own name.  The second token of the line of [web/shop2] is
    [shop2.local], not [shop.local]; the pruning test for [shop] matches it
    all the same, because [shop] occurs in it.  An update of [web/shop] and a
    removal of [web/shop] each delete the line of [web/shop2]. *)
Theorem pruning_matches_substrings :
  hosts_lines (reconcile "ADDED" shop2 (reconcile "ADDED" shop empty_state))
    = [shop_line; shop2_line]
  /\ nth 1 (split shop2_line) "" = "shop2.local"
  /\ matches_host (advertised_name shop) shop2_line = true
  /\ hosts_lines
       (reconcile "MODIFIED" shop
          (reconcile "ADDED" shop2 (reconcile "ADDED" shop empty_state)))
     = [shop_line]
  /\ hosts_lines
       (reconcile "DELETED" shop
          (reconcile "ADDED" shop2 (reconcile "ADDED" shop empty_state)))
     = [].
Proof. repeat split; vm_compute; reflexivity. Qed.

(** C3, at a failing input.  [web/shop] is advertised as a LoadBalancer and
    is then modified to the kind ClusterIP, which does not qualify.  The
    Modified event changes nothing: the hosts line of [web/shop] and its claim
    on [shop.local] are still there.  The same for a NodePort service. *)
Theorem kind_change_leaves_artifact :
  should_advertise shop_cluster_ip = false
  /\ service_key shop_cluster_ip = service_key shop
  /\ reconcile "MODIFIED" shop_cluster_ip (reconcile "ADDED" shop empty_state)
     = reconcile "ADDED" shop empty_state
  /\ hosts_lines (reconcile "MODIFIED" shop_cluster_ip (reconcile "ADDED" shop empty_state))
     = [shop_line]
  /\ services_dir
       (reconcile "MODIFIED"
          (mkService "grafana" "tools" [("avahi.local/name", "dashboards")] "ClusterIP"
                     [None] [])
          (reconcile "ADDED" grafana empty_state))
       !! "k8s-dashboards.service" = Some (record_xml grafana 31000).
Proof.
  split; [reflexivity | split; [reflexivity | split; [| split]]].
  - now apply reconcile_unsupported_kind.
  - vm_compute. reflexivity.
  - vm_compute. reflexivity.
Qed.

(** C4, at a failing input.  The hosts file holds one hand-written line with
    no line feed at its end.  The first application of [web/shop] writes the
    new entry onto the end of that line; the second application prunes the
    joined line, so the two files differ. *)
Theorem reapply_differs_on_unterminated_file :
  should_advertise shop = true
  /\ hosts_file (reconcile "ADDED" shop unterminated_state)
     = Some (printer_line +:+ shop_line)
  /\ hosts_file (reconcile "ADDED" shop (reconcile "ADDED" shop unterminated_state))
     = Some shop_line
  /\ hosts_file (reconcile "ADDED" shop (reconcile "ADDED" shop unterminated_state))
     <> hosts_file (reconcile "ADDED" shop unterminated_state).
Proof. repeat split; try (vm_compute; reflexivity). vm_compute. discriminate. Qed.

(** C8, at a failing input.  The same hosts file: its one line bears no
    marker.  After [web/shop] is created the file has no unmanaged line any
    more, the hand-written text being the head of a line that now bears the
    marker; after the next update of [web/shop] that text is gone. *)
Theorem unterminated_line_is_lost :
  unmanaged_lines unterminated_state = [printer_line]
  /\ hosts_lines (reconcile "ADDED" shop unterminated_state)
     = [printer_line +:+ shop_line]
  /\ unmanaged_lines (reconcile "ADDED" shop unterminated_state) = []
  /\ hosts_lines (reconcile "MODIFIED" shop (reconcile "ADDED" shop unterminated_state))
     = [shop_line]
  /\ str_in printer_line shop_line = false.
Proof. repeat split; vm_compute; reflexivity. Qed.

(** * The scenarios of the specification, run on the model *)

Example scenario_1_host_record :
  let st := handle_event empty_state (mkEvent "ADDED" shop (Completed 0 "")) in
  hosts_file st = Some shop_line
  /\ trace st = [LogInfo (MsgCreatedA "shop.local" "10.0.42.50" "web/shop");
                 RunReload; LogInfo MsgReloaded]
  /\ needs_reload st = false.
Proof. repeat split; vm_compute; reflexivity. Qed.

Example scenario_2_service_record :
  let st := handle_event empty_state (mkEvent "ADDED" grafana (Completed 0 "")) in
  services_dir st !! "k8s-dashboards.service" = Some (record_xml grafana 31000)
  /\ str_in "<port>31000</port>" (record_xml grafana 31000) = true
  /\ str_in "<type>_http._tcp</type>" (record_xml grafana 31000) = true.
Proof. repeat split; vm_compute; reflexivity. Qed.

Example scenario_4_disabled :
  let st1 := handle_event empty_state (mkEvent "ADDED" shop (Completed 0 "")) in
  let st2 := handle_event st1 (mkEvent "MODIFIED" shop_disabled (Completed 0 "")) in
  should_advertise shop_disabled = false
  /\ hosts_file st2 = Some ""
  /\ List.length (List.filter is_reload (trace st2)) = 2%nat
  /\ hostname_map st2 !! "shop.local" = None.
Proof. repeat split; vm_compute; reflexivity. Qed.

Example load_managed_hosts_reads_second_token :
  elements (managed_hosts
              (_load_managed_hosts
                 (mkState (Some (printer_line +:+ nl +:+ shop_line)) ∅ ∅ ∅ false ∅ ∅ [])))
  = ["shop.local"].
Proof. vm_compute. reflexivity. Qed.

Example txt_records_keep_order :
  txt_records_of
    (get_service_annotations
       (mkService "grafana" "tools"
          [("avahi.local/txt-path", "/d"); ("other/key", "x");
           ("avahi.local/txt-ver", "2"); ("avahi.local/txt-path", "/e")]
          "NodePort" [Some 31000] []))
  = [("path", "/e"); ("ver", "2")].
Proof. reflexivity. Qed.

(** * Further properties of the advertiser *)

(** ** Annotations *)

Section Annotations.

Lemma dict_get_set_eq (d : dict) (k v : string) : dict_get (dict_set d k v) k = Some v.
Proof.
  induction d as [|[k' v'] d IH]; cbn [dict_set dict_get].
  - now rewrite String.eqb_refl.
  - destruct (String.eqb k' k) eqn:E; cbn [dict_get]; rewrite E; [reflexivity | exact IH].
Qed.

Lemma dict_get_set_ne (d : dict) (k v k' : string) :
  k <> k' -> dict_get (dict_set d k v) k' = dict_get d k'.
Proof.
  intros Hne. induction d as [|[k0 v0] d IH]; cbn [dict_set dict_get].
  - destruct (String.eqb_spec k k'); [contradiction | reflexivity].
  - destruct (String.eqb_spec k0 k) as [-> | Hk]; cbn [dict_get].
    + destruct (String.eqb_spec k k'); [contradiction | reflexivity].
    + destruct (String.eqb k0 k'); [reflexivity | exact IH].
Qed.

Lemma dict_get_absent (d : dict) (k : string) : ~ In k (dict_keys d) -> dict_get d k = None.
Proof.
  induction d as [|[k' v'] d IH]; [reflexivity |]. cbn. intros H.
  destruct (String.eqb_spec k' k) as [-> | _]; [tauto |]. apply IH. tauto.
Qed.

Lemma dict_set_keys (d : dict) (k v k' : string) :
  In k' (dict_keys (dict_set d k v)) <-> k' = k \/ In k' (dict_keys d).
Proof.
  induction d as [|[k0 v0] d IH]; cbn [dict_set dict_keys map fst In].
  - intuition congruence.
  - destruct (String.eqb_spec k0 k) as [-> | Hk]; cbn [map fst In].
    + intuition congruence.
    + fold (dict_keys (dict_set d k v)). fold (dict_keys d). rewrite IH. tauto.
Qed.

Lemma dict_set_nodup (d : dict) (k v : string) :
  List.NoDup (dict_keys d) -> List.NoDup (dict_keys (dict_set d k v)).
Proof.
  induction d as [|[k0 v0] d IH]; cbn [dict_set dict_keys map fst]; intros H.
  - constructor; [intros [] | constructor].
  - inversion H as [|? ? Hnotin Hd]; subst.
    destruct (String.eqb_spec k0 k) as [-> | Hk]; cbn [map fst].
    + constructor; assumption.
    + constructor; [| now apply IH].
      fold (dict_keys (dict_set d k v)). rewrite dict_set_keys.
      fold (dict_keys d) in Hnotin. intuition congruence.
Qed.

Lemma slice_from_append (p k : string) : slice_from (String.length p) (p +:+ k) = k.
Proof. induction p as [|c p IH]; [reflexivity | exact IH]. Qed.

Lemma startswith_split (p key : string) :
  startswith p key = true -> key = p +:+ slice_from (String.length p) key.
Proof.
  unfold startswith. revert key. induction p as [|c p IH]; intros key H; [reflexivity |].
  destruct key as [|x key]; [discriminate |]. cbn [String.prefix] in H.
  destruct (ascii_dec c x) as [-> | _]; [| discriminate].
  rewrite append_cons. cbn [String.length slice_from]. f_equal. now apply IH.
Qed.

Lemma select_fold_lookup (p : string) (d acc : dict) (k : string) :
  List.NoDup (dict_keys d) ->
  dict_get
    (fold_left
       (fun acc kv =>
          if startswith p (fst kv)
          then dict_set acc (slice_from (String.length p) (fst kv)) (snd kv)
          else acc)
       d acc) k =
  match dict_get d (p +:+ k) with
  | Some v => Some v
  | None => dict_get acc k
  end.
Proof.
  revert acc. induction d as [|[key v] d IH]; intros acc Hnd; [reflexivity |].
  inversion Hnd as [|? ? Hnotin Hd]; subst.
  cbn [fold_left fst snd]. rewrite (IH _ Hd). cbn [dict_get].
  destruct (String.eqb_spec key (p +:+ k)) as [-> | Hkey].
  - rewrite (dict_get_absent d (p +:+ k) Hnotin).
    unfold startswith. rewrite prefix_append, slice_from_append.
    apply dict_get_set_eq.
  - destruct (dict_get d (p +:+ k)); [reflexivity |].
    destruct (startswith p key) eqn:Hp; [| reflexivity].
    apply dict_get_set_ne. intros <-. apply Hkey. now apply startswith_split.
Qed.

Lemma select_fold_nodup (p : string) (d acc : dict) :
  List.NoDup (dict_keys acc) ->
  List.NoDup
    (dict_keys
       (fold_left
          (fun acc kv =>
             if startswith p (fst kv)
             then dict_set acc (slice_from (String.length p) (fst kv)) (snd kv)
             else acc)
          d acc)).
Proof.
  revert acc. induction d as [|[key v] d IH]; intros acc Hacc; [exact Hacc |].
  cbn [fold_left fst snd]. apply IH.
  destruct (startswith p key); [now apply dict_set_nodup | exact Hacc].
Qed.

Lemma select_prefixed_lookup (p : string) (d : dict) (k : string) :
  List.NoDup (dict_keys d) -> dict_get (select_prefixed p d) k = dict_get d (p +:+ k).
Proof.
  intros H. unfold select_prefixed. rewrite select_fold_lookup by exact H.
  now destruct (dict_get d (p +:+ k)).
Qed.

Lemma select_prefixed_nodup (p : string) (d : dict) :
  List.NoDup (dict_keys (select_prefixed p d)).
Proof. apply select_fold_nodup. constructor. Qed.

Lemma get_service_annotations_select (svc : Service) :
  get_service_annotations svc = select_prefixed ANNOTATION_PREFIX (metadata_annotations svc).
Proof. reflexivity. Qed.

Lemma txt_records_of_select (annotations : dict) :
  txt_records_of annotations = select_prefixed "txt-" annotations.
Proof. reflexivity. Qed.

End Annotations.

(** X1.  On a snapshot whose annotation keys are distinct, as a dictionary's
    are, looking a short key up in what [get_service_annotations] returns is
    looking the key with the prefix [avahi.local/] up in the snapshot's
    annotations: annotations without the prefix are invisible, no two short
    keys coincide, and the advertised name is the value of
    [avahi.local/name] when there is one and the resource name otherwise. *)
Theorem annotations_lookup (svc : Service) (k : string) :
  List.NoDup (dict_keys (metadata_annotations svc)) ->
  dict_get (get_service_annotations svc) k =
    dict_get (metadata_annotations svc) (ANNOTATION_PREFIX +:+ k)
  /\ List.NoDup (dict_keys (get_service_annotations svc))
  /\ advertised_name svc =
       match dict_get (metadata_annotations svc) "avahi.local/name" with
       | Some override => override
       | None => metadata_name svc
       end.
Proof.
  intros H. rewrite get_service_annotations_select. split; [| split].
  - now apply select_prefixed_lookup.
  - apply select_prefixed_nodup.
  - unfold advertised_name, dict_get_default.
    rewrite get_service_annotations_select, select_prefixed_lookup by exact H.
    reflexivity.
Qed.

Lemma annotations_lookup_witness :
  dict_get (get_service_annotations grafana) "name" = Some "dashboards"
  /\ advertised_name grafana = "dashboards".
Proof.
  destruct (annotations_lookup grafana "name") as (H1 & _ & H3).
  - repeat constructor. intros [].
  - split; [exact H1 | exact H3].
Defined.

(** X2.  On a snapshot whose annotation keys are distinct, the TXT record of
    key [k] that [create_service_record] puts in the service document is the
    value of the annotation [avahi.local/txt-k], and there is none when that
    annotation is absent. *)
Theorem txt_record_lookup (svc : Service) (k : string) :
  List.NoDup (dict_keys (metadata_annotations svc)) ->
  dict_get (txt_records_of (get_service_annotations svc)) k =
  dict_get (metadata_annotations svc) ("avahi.local/txt-" +:+ k).
Proof.
  intros H. rewrite txt_records_of_select, select_prefixed_lookup
    by (rewrite get_service_annotations_select; apply select_prefixed_nodup).
  rewrite get_service_annotations_select, select_prefixed_lookup by exact H.
  reflexivity.
Qed.

Lemma txt_record_lookup_witness :
  dict_get
    (txt_records_of
       (get_service_annotations
          (mkService "grafana" "tools"
             [("avahi.local/txt-path", "/d"); ("txt-ver", "2")] "NodePort" [Some 31000] [])))
    "path" = Some "/d".
Proof.
  apply (txt_record_lookup
           (mkService "grafana" "tools"
              [("avahi.local/txt-path", "/d"); ("txt-ver", "2")] "NodePort" [Some 31000] [])
           "path").
  repeat constructor; cbn; intuition discriminate.
Defined.

(** ** Qualification *)

Lemma enabled_guard (annotations : dict) :
  match annotations with [] => false | _ :: _ => true end
  && String.eqb (lower (dict_get_default annotations "avahi.local/enabled" "true")) "false"
  = String.eqb (lower (dict_get_default annotations "avahi.local/enabled" "true")) "false".
Proof. destruct annotations; reflexivity. Qed.

(** X3.  A snapshot qualifies exactly when it is a NodePort service, or a
    LoadBalancer service with at least one ingress, and its annotation
    [avahi.local/enabled] does not read [false] in any letter case.  Ports
    play no part, and neither does any other value of the annotation. *)
Theorem should_advertise_iff (svc : Service) :
  should_advertise svc = true <->
  (spec_type svc = "NodePort"
   \/ (spec_type svc = "LoadBalancer" /\ status_ingress svc <> []))
  /\ lower (dict_get_default (metadata_annotations svc) "avahi.local/enabled" "true")
     <> "false".
Proof.
  unfold should_advertise, string_in_list. cbn [existsb].
  change (ANNOTATION_PREFIX +:+ "enabled") with "avahi.local/enabled".
  rewrite enabled_guard.
  destruct (String.eqb_spec
              (lower (dict_get_default (metadata_annotations svc)
                        "avahi.local/enabled" "true")) "false") as [E | E];
    destruct (String.eqb_spec (spec_type svc) "LoadBalancer") as [Hlb | Hlb];
    destruct (String.eqb_spec (spec_type svc) "NodePort") as [Hnp | Hnp];
    destruct (status_ingress svc) as [|first rest];
    cbn [orb negb andb]; split; intros H; try discriminate; try reflexivity;
    try (split; [| exact E]); intuition congruence.
Qed.

(** ** File names *)

Section FileNames.

Lemma sanitised_char_safe (c : ascii) :
  is_ascii_char c = true -> is_safe_char (safe_char (lower_char c)) = true.
Proof. destruct c as [[] [] [] [] [] [] [] []]; intros H; try reflexivity; discriminate H. Qed.

Lemma sanitised_char_no_slash (c : ascii) :
  Ascii.eqb (safe_char (lower_char c)) "/" = false.
Proof. destruct c as [[] [] [] [] [] [] [] []]; reflexivity. Qed.

Lemma sanitised_char_fixed (c : ascii) :
  safe_char (lower_char (safe_char (lower_char c))) = safe_char (lower_char c).
Proof. destruct c as [[] [] [] [] [] [] [] []]; reflexivity. Qed.

Lemma lower_char_fixed (c : ascii) : lower_char (lower_char c) = lower_char c.
Proof. destruct c as [[] [] [] [] [] [] [] []]; reflexivity. Qed.

Lemma safe_name_cons (c : ascii) (s : string) :
  safe_name (String c s) = String (safe_char (lower_char c)) (safe_name s).
Proof. reflexivity. Qed.

Lemma safe_name_length (s : string) : String.length (safe_name s) = String.length s.
Proof.
  induction s as [|c s IH]; [reflexivity |].
  rewrite safe_name_cons. cbn [String.length]. now f_equal.
Qed.

Lemma safe_name_safe (s : string) :
  string_forall is_ascii_char s = true -> string_forall is_safe_char (safe_name s) = true.
Proof.
  induction s as [|c s IH]; [reflexivity |]. cbn [string_forall].
  intros H. apply andb_true_iff in H as [Hc Hs].
  rewrite safe_name_cons. cbn [string_forall].
  now rewrite sanitised_char_safe, IH.
Qed.

Lemma no_slash_append (a b : string) : no_slash (a +:+ b) = no_slash a && no_slash b.
Proof.
  unfold no_slash. induction a as [|c a IH]; [reflexivity |].
  rewrite append_cons, !str_in_char_cons, !negb_orb, IH. now rewrite andb_assoc.
Qed.

Lemma safe_name_no_slash (s : string) : no_slash (safe_name s) = true.
Proof.
  unfold no_slash. induction s as [|c s IH]; [reflexivity |].
  rewrite safe_name_cons, str_in_char_cons, sanitised_char_no_slash. exact IH.
Qed.

Lemma append_length (a b : string) :
  String.length (a +:+ b) = (String.length a + String.length b)%nat.
Proof. induction a as [|c a IH]; [reflexivity |]. rewrite append_cons. cbn. now f_equal. Qed.

End FileNames.

(** X4.  The file name computed for an advertised name is [k8s-], a stem,
    and [.service]; no slash occurs in it, so the file lies in the services
    directory itself; and for a seven-bit name the stem is as long as the name
    and made of lower-case letters, digits, [-] and [_] only. *)
Theorem service_filename_safe (advertise_name : string) :
  service_filename advertise_name = "k8s-" +:+ safe_name advertise_name +:+ ".service"
  /\ str_in "/" (service_filename advertise_name) = false
  /\ (string_forall is_ascii_char advertise_name = true ->
      string_forall is_safe_char (safe_name advertise_name) = true
      /\ String.length (service_filename advertise_name)
         = (String.length advertise_name + 12)%nat).
Proof.
  split; [reflexivity | split].
  - apply negb_true_iff. fold (no_slash (service_filename advertise_name)).
    unfold service_filename. rewrite !no_slash_append, safe_name_no_slash. reflexivity.
  - intros H. split; [now apply safe_name_safe |].
    unfold service_filename. rewrite !append_length, safe_name_length. cbn. lia.
Qed.

Lemma service_filename_safe_witness :
  string_forall is_safe_char (safe_name "../My App.v2") = true
  /\ service_filename "../My App.v2" = "k8s----my-app-v2.service".
Proof.
  split; [| reflexivity].
  apply (service_filename_safe "../My App.v2"). reflexivity.
Defined.

(** X5.  Sanitising is idempotent and blind to letter case: a name that is
    already a stem is its own stem, and a name and its lower-case form get the
    same file. *)
Theorem safe_name_idempotent (advertise_name : string) :
  safe_name (safe_name advertise_name) = safe_name advertise_name
  /\ service_filename (lower advertise_name) = service_filename advertise_name.
Proof.
  split.
  - induction advertise_name as [|c s IH]; [reflexivity |].
    rewrite !safe_name_cons, sanitised_char_fixed. now f_equal.
  - unfold service_filename. do 2 f_equal.
    induction advertise_name as [|c s IH]; [reflexivity |].
    change (lower (String c s)) with (String (lower_char c) (lower s)).
    rewrite !safe_name_cons, lower_char_fixed. now f_equal.
Qed.

(** ** The service document *)

Section ServiceDocument.

Lemma join_lines (x : string) (xs : list string) :
  join nl (x :: xs) +:+ nl = writelines (map (fun l => l +:+ nl) (x :: xs)).
Proof.
  revert x. induction xs as [|y xs IH]; intros x.
  - cbn [join map writelines]. now rewrite append_empty_r.
  - change (join nl (x :: y :: xs)) with (x +:+ nl +:+ join nl (y :: xs)).
    rewrite !append_assoc, IH. cbn [map]. rewrite !writelines_cons, !append_assoc.
    reflexivity.
Qed.

Lemma terminated_append_r (a b : string) :
  b <> "" -> terminated (a +:+ b) = terminated b.
Proof.
  intros Hb. induction a as [|c a IH]; [reflexivity |].
  rewrite append_cons, terminated_cons; [exact IH |].
  destruct a; [exact Hb | discriminate].
Qed.

Lemma join_txt_nonempty (kv : string * string) (rest : dict) :
  is_empty_string (join nl (map txt_record_xml (kv :: rest))) = false.
Proof. destruct rest; reflexivity. Qed.

End ServiceDocument.

(** X6.  The service document is its fixed opening (name, type, port), then
    one line per TXT record in the order of the dictionary, each with its line
    feed, then the fixed closing: no empty line appears when there is no TXT
    record, and the document ends in a line feed. *)
Theorem to_xml_layout (f : AvahiServiceFile) :
  to_xml f =
    xml_prologue f +:+ writelines (map txt_record_line (asf_txt_records f)) +:+ xml_epilogue
  /\ terminated (to_xml f) = true.
Proof.
  assert (E : to_xml f =
              xml_prologue f +:+ writelines (map txt_record_line (asf_txt_records f))
              +:+ xml_epilogue).
  { unfold to_xml. fold (xml_prologue f).
    destruct (asf_txt_records f) as [|kv rest].
    - reflexivity.
    - rewrite join_txt_nonempty.
      assert (M : map txt_record_line (kv :: rest) =
                  map (fun l => l +:+ nl) (map txt_record_xml (kv :: rest)))
        by (rewrite List.map_map; reflexivity).
      rewrite M. change (map txt_record_xml (kv :: rest))
        with (txt_record_xml kv :: map txt_record_xml rest).
      rewrite <- join_lines, !append_assoc. reflexivity. }
  split; [exact E |].
  rewrite E, <- append_assoc, terminated_append_r; [reflexivity | discriminate].
Qed.

(** ** The two kinds of artifact do not interfere *)

Section Frames.

Variables (svc : Service) (st : State).

Lemma create_host_record_frame :
  services_dir (create_host_record svc st) = services_dir st
  /\ service_name_map (create_host_record svc st) = service_name_map st
  /\ managed_files (create_host_record svc st) = managed_files st.
Proof.
  unfold create_host_record. destruct (status_ingress svc); [cbn; auto |].
  destruct (hostname_map st !! _) as [existing|]; [destruct (negb _) |]; cbn; auto.
Qed.

Lemma remove_host_record_frame :
  services_dir (remove_host_record svc st) = services_dir st
  /\ service_name_map (remove_host_record svc st) = service_name_map st
  /\ managed_files (remove_host_record svc st) = managed_files st.
Proof.
  unfold remove_host_record. destruct (hosts_file st); [| auto].
  destruct (_ <? _)%nat; cbn; auto.
Qed.

Lemma create_service_record_frame :
  hosts_file (create_service_record svc st) = hosts_file st
  /\ hostname_map (create_service_record svc st) = hostname_map st
  /\ managed_hosts (create_service_record svc st) = managed_hosts st.
Proof.
  unfold create_service_record. destruct (spec_ports svc) as [|[port|] rest]; [cbn; auto | | cbn; auto].
  destruct (port =? 0); [cbn; auto |].
  destruct (service_name_map st !! _) as [existing|]; [destruct (negb _) |]; cbn; auto.
Qed.

Lemma remove_service_record_frame :
  hosts_file (remove_service_record svc st) = hosts_file st
  /\ hostname_map (remove_service_record svc st) = hostname_map st
  /\ managed_hosts (remove_service_record svc st) = managed_hosts st.
Proof.
  unfold remove_service_record. destruct (services_dir st !! _); cbn; auto.
Qed.

End Frames.

(** X7.  Whatever the event, reconciling a LoadBalancer snapshot leaves the
    services directory, the service-name claims and the set of managed files
    as they were, and reconciling a NodePort snapshot leaves the hosts file,
    the hostname claims and the set of managed hosts as they were. *)
Theorem reconcile_kinds_independent (ev : string) (svc : Service) (st : State) :
  (spec_type svc = "LoadBalancer" ->
   services_dir (reconcile ev svc st) = services_dir st
   /\ service_name_map (reconcile ev svc st) = service_name_map st
   /\ managed_files (reconcile ev svc st) = managed_files st)
  /\ (spec_type svc = "NodePort" ->
      hosts_file (reconcile ev svc st) = hosts_file st
      /\ hostname_map (reconcile ev svc st) = hostname_map st
      /\ managed_hosts (reconcile ev svc st) = managed_hosts st).
Proof.
  split; intros Hty; unfold reconcile, create_avahi_advertisement,
    remove_avahi_advertisement; rewrite Hty; cbn [String.eqb Ascii.eqb Bool.eqb].
  - destruct (string_in_list ev _); [destruct (should_advertise svc) |
      destruct (String.eqb ev _)];
      auto using create_host_record_frame, remove_host_record_frame.
  - destruct (string_in_list ev _); [destruct (should_advertise svc) |
      destruct (String.eqb ev _)];
      auto using create_service_record_frame, remove_service_record_frame.
Qed.

Lemma reconcile_kinds_independent_witness :
  services_dir (reconcile "ADDED" shop displaced_service_state)
    = services_dir displaced_service_state
  /\ hosts_file (reconcile "DELETED" grafana displaced_host_state)
     = hosts_file displaced_host_state.
Proof.
  split.
  - apply (proj1 (reconcile_kinds_independent "ADDED" shop displaced_service_state)).
    reflexivity.
  - apply (proj2 (reconcile_kinds_independent "DELETED" grafana displaced_host_state)).
    reflexivity.
Defined.

(** ** Invariants of the whole run *)

Section Invariant.

Variable Inv : State -> Prop.
Hypothesis Inv_emit : forall e st, Inv st -> Inv (emit e st).
Hypothesis Inv_flag : forall b st, Inv st -> Inv (set_needs_reload b st).
Hypothesis Inv_create_host : forall svc st, Inv st -> Inv (create_host_record svc st).
Hypothesis Inv_create_service : forall svc st, Inv st -> Inv (create_service_record svc st).
Hypothesis Inv_remove_host : forall svc st, Inv st -> Inv (remove_host_record svc st).
Hypothesis Inv_remove_service : forall svc st, Inv st -> Inv (remove_service_record svc st).

Lemma inv_create (svc : Service) (st : State) :
  Inv st -> Inv (create_avahi_advertisement svc st).
Proof.
  unfold create_avahi_advertisement.
  destruct (String.eqb _ _); [auto |]. destruct (String.eqb _ _); auto.
Qed.

Lemma inv_remove (svc : Service) (st : State) :
  Inv st -> Inv (remove_avahi_advertisement svc st).
Proof.
  unfold remove_avahi_advertisement.
  destruct (String.eqb _ _); [auto |]. destruct (String.eqb _ _); auto.
Qed.

Lemma inv_reconcile (ev : string) (svc : Service) (st : State) :
  Inv st -> Inv (reconcile ev svc st).
Proof.
  unfold reconcile. destruct (string_in_list ev _);
    [destruct (should_advertise svc) | destruct (String.eqb ev _)];
    auto using inv_create, inv_remove.
Qed.

Lemma inv_reload (o : reload_outcome) (st : State) :
  Inv st -> Inv (reload_avahi_daemon o st).
Proof.
  unfold reload_avahi_daemon. destruct (negb _); [auto |].
  destruct o as [rc stderr | |]; [destruct (rc =? 0) |..]; auto.
Qed.

Lemma inv_handle_event (st : State) (event : Event) :
  Inv st -> Inv (handle_event st event).
Proof. unfold handle_event. auto using inv_reload, inv_reconcile. Qed.

Lemma inv_events (events : list Event) (st : State) :
  Inv st -> Inv (fold_left handle_event events st).
Proof.
  revert st. induction events as [|event events IH]; intros st H; [exact H |].
  cbn [fold_left]. apply IH. now apply inv_handle_event.
Qed.

Lemma inv_watch_iteration (sub : Subscription) (st : State) :
  Inv st -> Inv (snd (watch_iteration sub st)).
Proof.
  intros H. unfold watch_iteration.
  assert (Inv (fold_left handle_event (sub_events sub) (emit Subscribe st)))
    by auto using inv_events.
  destruct (sub_end sub) as [| status | |]; [| destruct (status =? 410) | |];
    cbn [snd]; auto.
Qed.

Lemma inv_watch_loop (subs : list Subscription) (st : State) :
  Inv st -> Inv (snd (watch_loop subs st)).
Proof.
  revert st. induction subs as [|sub subs IH]; intros st H; [exact H |].
  cbn [watch_loop]. pose proof (inv_watch_iteration sub st H) as H'.
  destruct (watch_iteration sub st) as [[|] st']; cbn [snd] in *; auto.
Qed.

Lemma inv_sync_fold (items : list Service) (st : State) :
  Inv st -> Inv (fold_left sync_one items st).
Proof.
  revert st. induction items as [|svc items IH]; intros st H; [exact H |].
  cbn [fold_left]. apply IH. unfold sync_one.
  destruct (should_advertise svc); auto using inv_create.
Qed.

Lemma inv_sync (listing : option (list Service)) (o : reload_outcome) (st : State) :
  Inv st -> Inv (sync_existing_services listing o st).
Proof.
  intros H. unfold sync_existing_services. destruct listing as [items|]; [| auto].
  auto using inv_reload, inv_sync_fold.
Qed.

Lemma inv_sync_then_watch (listing : option (list Service)) (o : reload_outcome)
    (subs : list Subscription) (st : State) :
  Inv st -> Inv (snd (sync_then_watch listing o subs st)).
Proof.
  intros H. unfold sync_then_watch, watch_services.
  auto using inv_watch_loop, inv_sync.
Qed.

End Invariant.

Section TrackedFiles.

Lemma files_tracked_create_service (svc : Service) (st : State) :
  files_tracked st -> files_tracked (create_service_record svc st).
Proof.
  unfold files_tracked, create_service_record. intros Hft.
  destruct (spec_ports svc) as [|[port|] rest]; [exact Hft | | exact Hft].
  destruct (port =? 0); [exact Hft |].
  destruct (service_name_map st !! _) as [existing|]; [destruct (negb _) |];
    cbn; rewrite dom_insert_L; now apply union_mono_l.
Qed.

Lemma files_tracked_remove_service (svc : Service) (st : State) :
  files_tracked st -> files_tracked (remove_service_record svc st).
Proof.
  unfold files_tracked, remove_service_record. intros Hft.
  destruct (services_dir st !! _); [| exact Hft].
  cbn. rewrite dom_delete_L. now apply difference_mono_r.
Qed.

Lemma files_tracked_create_host (svc : Service) (st : State) :
  files_tracked st -> files_tracked (create_host_record svc st).
Proof.
  unfold files_tracked. destruct (create_host_record_frame svc st) as (-> & _ & ->). auto.
Qed.

Lemma files_tracked_remove_host (svc : Service) (st : State) :
  files_tracked st -> files_tracked (remove_host_record svc st).
Proof.
  unfold files_tracked. destruct (remove_host_record_frame svc st) as (-> & _ & ->). auto.
Qed.

Lemma hosts_terminated_create_host (svc : Service) (st : State) :
  hosts_terminated st = true -> hosts_terminated (create_host_record svc st) = true.
Proof.
  intros H. destruct (status_ingress svc) as [|first rest] eqn:Hing.
  - rewrite create_host_record_no_ip by exact Hing. exact H.
  - apply create_host_record_terminated. congruence.
Qed.

Lemma hosts_terminated_remove_host (svc : Service) (st : State) :
  hosts_terminated st = true -> hosts_terminated (remove_host_record svc st) = true.
Proof.
  unfold hosts_terminated, remove_host_record.
  destruct (hosts_file st) as [content|] eqn:Hf; [| now rewrite Hf].
  destruct (_ <? _)%nat; [| now rewrite Hf].
  intros H. cbn. now apply filter_terminated.
Qed.

Lemma hosts_terminated_create_service (svc : Service) (st : State) :
  hosts_terminated st = true -> hosts_terminated (create_service_record svc st) = true.
Proof.
  unfold hosts_terminated. now destruct (create_service_record_frame svc st) as (-> & _).
Qed.

Lemma hosts_terminated_remove_service (svc : Service) (st : State) :
  hosts_terminated st = true -> hosts_terminated (remove_service_record svc st) = true.
Proof.
  unfold hosts_terminated. now destruct (remove_service_record_frame svc st) as (-> & _).
Qed.

End TrackedFiles.

(** X8.  Every file name the advertiser holds in [managed_files] names a file
    that is in the services directory.  This is so for a freshly constructed
    advertiser, and every handled event, the startup sync and the whole watch
    loop keep it so. *)
Theorem managed_files_exist (st : State) (event : Event)
    (listing : option (list Service)) (o : reload_outcome) (subs : list Subscription) :
  (forall hosts dir, files_tracked (fresh_state hosts dir))
  /\ (files_tracked st ->
      files_tracked (handle_event st event)
      /\ files_tracked (snd (sync_then_watch listing o subs st))
      /\ forall name, name ∈ managed_files (snd (sync_then_watch listing o subs st)) ->
                      is_Some (services_dir (snd (sync_then_watch listing o subs st)) !! name)).
Proof.
  split; [intros hosts dir; unfold files_tracked; cbn; set_solver |].
  intros H.
  assert (Hrun : files_tracked (snd (sync_then_watch listing o subs st))).
  { apply inv_sync_then_watch;
      auto using files_tracked_create_host, files_tracked_create_service,
        files_tracked_remove_host, files_tracked_remove_service. }
  split; [| split; [exact Hrun |]].
  - apply inv_handle_event;
      auto using files_tracked_create_host, files_tracked_create_service,
        files_tracked_remove_host, files_tracked_remove_service.
  - intros name Hin. apply elem_of_dom. apply Hrun, Hin.
Qed.

Lemma managed_files_exist_witness :
  files_tracked
    (snd (sync_then_watch (Some [grafana; shop]) (Completed 0 "")
            [mkSubscription [mkEvent "DELETED" grafana TimeoutExpired] StreamClosed]
            empty_state)).
Proof.
  destruct (managed_files_exist empty_state (mkEvent "ADDED" shop RunFailed)
              (Some [grafana; shop]) (Completed 0 "")
              [mkSubscription [mkEvent "DELETED" grafana TimeoutExpired] StreamClosed])
    as [Hfresh Hkeep].
  apply Hkeep. apply (Hfresh (Some "") ∅).
Defined.

(** X9.  A hosts file that is absent, empty or ends in a line feed stays so
    through every handled event, the startup sync and the whole watch loop;
    and once a host record has been written the file ends in a line feed,
    whatever it was before. *)
Theorem hosts_file_stays_terminated (st : State) (event : Event)
    (listing : option (list Service)) (o : reload_outcome) (subs : list Subscription) :
  (hosts_terminated st = true ->
   hosts_terminated (handle_event st event) = true
   /\ hosts_terminated (snd (sync_then_watch listing o subs st)) = true)
  /\ (forall svc, status_ingress svc <> [] ->
                  hosts_terminated (create_host_record svc st) = true).
Proof.
  split.
  - intros H. split.
    + apply (inv_handle_event (fun s => hosts_terminated s = true));
        auto using hosts_terminated_create_host, hosts_terminated_create_service,
          hosts_terminated_remove_host, hosts_terminated_remove_service.
    + apply (inv_sync_then_watch (fun s => hosts_terminated s = true));
        auto using hosts_terminated_create_host, hosts_terminated_create_service,
          hosts_terminated_remove_host, hosts_terminated_remove_service.
  - intros svc. apply create_host_record_terminated.
Qed.

Lemma hosts_file_stays_terminated_witness :
  hosts_terminated (handle_event empty_state (mkEvent "ADDED" shop RunFailed)) = true
  /\ hosts_terminated (create_host_record shop unterminated_state) = true.
Proof.
  destruct (hosts_file_stays_terminated empty_state (mkEvent "ADDED" shop RunFailed)
              None RunFailed []) as [Hkeep _].
  destruct (hosts_file_stays_terminated unterminated_state (mkEvent "ADDED" shop RunFailed)
              None RunFailed []) as [_ Hmake].
  split; [apply Hkeep; reflexivity | apply Hmake; discriminate].
Defined.

(** ** Reloading once per batch *)

Section Batches.

Lemma logs_only_refl (st : State) : logs_only st st.
Proof. exists []. now rewrite app_nil_r. Qed.

Lemma logs_only_trans (a b c : State) : logs_only a b -> logs_only b c -> logs_only a c.
Proof.
  intros (t1 & E1 & F1) (t2 & E2 & F2). exists (t1 ++ t2). split.
  - now rewrite E2, E1, <- app_assoc.
  - now apply List.Forall_app.
Qed.

Lemma logs_only_trace (st st' : State) (tail : list effect) :
  trace st' = trace st ++ tail -> Forall (fun e => is_log e = true) tail -> logs_only st st'.
Proof. intros E F. now exists tail. Qed.

Lemma conflict_of_logs (holder : option string) (key : string) (report : string -> message) :
  Forall (fun e => is_log e = true) (conflict_of holder key report).
Proof.
  unfold conflict_of. destruct holder as [existing|]; [| constructor].
  destruct (negb _); repeat constructor.
Qed.

Lemma logs_only_create_host (svc : Service) (st : State) :
  logs_only st (create_host_record svc st).
Proof.
  destruct (status_ingress svc) as [|first rest] eqn:Hing.
  - rewrite create_host_record_no_ip by exact Hing.
    eapply logs_only_trace; [apply trace_emit | repeat constructor].
  - destruct (create_host_record_fields svc st) as (_ & _ & _ & _ & _ & T); [congruence |].
    eapply logs_only_trace; [exact T |].
    apply List.Forall_app. split; [apply conflict_of_logs | repeat constructor].
Qed.

Lemma logs_only_create_service (svc : Service) (st : State) :
  logs_only st (create_service_record svc st).
Proof.
  destruct (node_port_of svc) as [port|] eqn:Hp.
  - destruct (create_service_record_fields svc st port Hp) as (_ & _ & _ & _ & _ & T).
    eapply logs_only_trace; [exact T |].
    apply List.Forall_app. split; [apply conflict_of_logs | repeat constructor].
  - destruct (create_service_record_skipped svc st Hp) as [m ->].
    eapply logs_only_trace; [apply trace_emit | repeat constructor].
Qed.

Lemma logs_only_remove_host (svc : Service) (st : State) :
  logs_only st (remove_host_record svc st).
Proof.
  unfold remove_host_record. destruct (hosts_file st); [| apply logs_only_refl].
  destruct (_ <? _)%nat; [| apply logs_only_refl].
  eapply logs_only_trace; [cbn; reflexivity | repeat constructor].
Qed.

Lemma logs_only_remove_service (svc : Service) (st : State) :
  logs_only st (remove_service_record svc st).
Proof.
  unfold remove_service_record. destruct (services_dir st !! _); [| apply logs_only_refl].
  eapply logs_only_trace; [cbn; reflexivity | repeat constructor].
Qed.

Lemma logs_only_create (svc : Service) (st : State) :
  logs_only st (create_avahi_advertisement svc st).
Proof.
  unfold create_avahi_advertisement.
  destruct (String.eqb _ _); [apply logs_only_create_host |].
  destruct (String.eqb _ _); [apply logs_only_create_service | apply logs_only_refl].
Qed.

Lemma logs_only_reconcile (ev : string) (svc : Service) (st : State) :
  logs_only st (reconcile ev svc st).
Proof.
  unfold reconcile, remove_avahi_advertisement.
  repeat match goal with
         | |- context [if ?b then _ else _] => destruct b
         end;
    auto using logs_only_refl, logs_only_create, logs_only_remove_host,
      logs_only_remove_service.
Qed.

Lemma logs_only_sync_fold (items : list Service) (st : State) :
  logs_only st (fold_left sync_one items st).
Proof.
  revert st. induction items as [|svc items IH]; intros st; [apply logs_only_refl |].
  cbn [fold_left]. eapply logs_only_trans; [| apply IH].
  unfold sync_one. destruct (should_advertise svc);
    [apply logs_only_create | apply logs_only_refl].
Qed.

Lemma logs_have_no_reload (st st' : State) :
  logs_only st st' ->
  List.filter is_reload (trace st') = List.filter is_reload (trace st).
Proof.
  intros (tail & -> & F). rewrite List.filter_app.
  replace (List.filter is_reload tail) with (@nil effect); [apply app_nil_r |].
  induction F as [|e tail He _ IH]; [reflexivity |].
  cbn [List.filter]. destruct e; try discriminate He; exact IH.
Qed.

Lemma reload_count (o : reload_outcome) (st : State) :
  List.filter is_reload (trace (reload_avahi_daemon o st)) =
  List.filter is_reload (trace st) ++ (if needs_reload st then [RunReload] else []).
Proof.
  destruct (needs_reload st) eqn:Hn.
  - destruct (reload_attempt o st Hn) as (m & -> & Hm & _).
    rewrite List.filter_app. cbn [List.filter is_reload]. now rewrite Hm.
  - rewrite reload_clear by exact Hn. now rewrite app_nil_r.
Qed.

Lemma flag_covers_keeps (st st' : State) :
  flag_covers st st' -> needs_reload st = true -> needs_reload st' = true.
Proof. intros [H | (_ & _ & H)] Hn; congruence. Qed.

Lemma flag_covers_create (svc : Service) (st : State) :
  flag_covers st (create_avahi_advertisement svc st).
Proof.
  unfold create_avahi_advertisement.
  destruct (String.eqb _ _); [apply flag_covers_create_host_record |].
  destruct (String.eqb _ _); [apply flag_covers_create_service_record | apply flag_covers_refl].
Qed.

Lemma advertisable_sets_flag (svc : Service) (st : State) :
  advertisable svc = true -> needs_reload (create_avahi_advertisement svc st) = true.
Proof.
  unfold advertisable. intros H. apply andb_true_iff in H as [Hadv H].
  apply orb_true_iff in H as [Hlb | Hnp].
  - apply String.eqb_eq in Hlb. rewrite create_as_host by exact Hlb.
    apply (create_host_record_fields svc st). now apply should_advertise_ingress.
  - apply andb_true_iff in Hnp as [Hnp Hport]. apply String.eqb_eq in Hnp.
    rewrite create_as_service by exact Hnp.
    destruct (node_port_of svc) as [port|] eqn:Hp; [| discriminate].
    apply (create_service_record_fields svc st port Hp).
Qed.

Lemma advertisable_qualifies (svc : Service) :
  advertisable svc = true -> should_advertise svc = true.
Proof. unfold advertisable. intros H. now apply andb_true_iff in H as [H _]. Qed.

Lemma sync_fold_keeps_flag (items : list Service) (st : State) :
  needs_reload st = true -> needs_reload (fold_left sync_one items st) = true.
Proof.
  revert st. induction items as [|svc items IH]; intros st H; [exact H |].
  cbn [fold_left]. apply IH. unfold sync_one.
  destruct (should_advertise svc); [| exact H].
  exact (flag_covers_keeps st _ (flag_covers_create svc st) H).
Qed.

Lemma sync_fold_sets_flag (items : list Service) (st : State) :
  List.Exists (fun svc => advertisable svc = true) items ->
  needs_reload (fold_left sync_one items st) = true.
Proof.
  intros H. revert st. induction H as [svc items Hsvc | svc items _ IH]; intros st.
  - cbn [fold_left]. apply sync_fold_keeps_flag. unfold sync_one.
    rewrite (advertisable_qualifies svc Hsvc). now apply advertisable_sets_flag.
  - cbn [fold_left]. apply IH.
Qed.

End Batches.

Lemma reload_frame (o : reload_outcome) (st : State) :
  hosts_file (reload_avahi_daemon o st) = hosts_file st
  /\ services_dir (reload_avahi_daemon o st) = services_dir st.
Proof.
  unfold reload_avahi_daemon. destruct (negb (needs_reload st)); [auto |].
  destruct o as [rc stderr | |]; [destruct (rc =? 0) |..]; cbn; auto.
Qed.

Lemma reload_attempt_log (o : reload_outcome) (st : State) :
  needs_reload st = true ->
  exists m, trace (reload_avahi_daemon o st) = trace st ++ [RunReload; m]
            /\ is_log m = true.
Proof.
  intros Hn. destruct (reload_attempt o st Hn) as (m & T & Hr & Hs & Hb).
  exists m. split; [exact T |]. now destruct m.
Qed.

(** X10.  The startup sync runs the reload command at most once, and after
    the loop over the listed services has ended: the trace of the sync is the
    trace of that loop, which consists of log lines, followed by nothing when
    no reload is pending then, and by the command and the one log line of its
    outcome otherwise, and both artifacts are as the loop left them.  The
    command is run exactly once when a reload was pending or when at least
    one listed service is advertised, however many there are.  When listing
    the services raises [ApiException], the sync logs the failure and neither
    runs the command nor touches the flag or an artifact. *)
Theorem sync_reloads_once (listing : option (list Service)) (o : reload_outcome) (st : State) :
  (List.length (List.filter is_reload (trace (sync_existing_services listing o st)))
   <= S (List.length (List.filter is_reload (trace st))))%nat
  /\ (forall items,
         listing = Some items ->
         let looped := fold_left sync_one items (emit (LogInfo MsgSyncing) st) in
         logs_only (emit (LogInfo MsgSyncing) st) looped
         /\ hosts_file (sync_existing_services listing o st) = hosts_file looped
         /\ services_dir (sync_existing_services listing o st) = services_dir looped
         /\ (needs_reload looped = false ->
             sync_existing_services listing o st = looped)
         /\ (needs_reload looped = true ->
             exists m,
               trace (sync_existing_services listing o st) =
               trace looped ++ [RunReload; m]
               /\ is_log m = true))
  /\ (forall items,
         listing = Some items ->
         needs_reload st = true \/ List.Exists (fun svc => advertisable svc = true) items ->
         List.filter is_reload (trace (sync_existing_services listing o st))
         = List.filter is_reload (trace st) ++ [RunReload])
  /\ (listing = None ->
      trace (sync_existing_services listing o st) =
      trace st ++ [LogInfo MsgSyncing; LogError MsgListFailed]
      /\ List.filter is_reload (trace (sync_existing_services listing o st))
         = List.filter is_reload (trace st)
      /\ needs_reload (sync_existing_services listing o st) = needs_reload st
      /\ hosts_file (sync_existing_services listing o st) = hosts_file st
      /\ services_dir (sync_existing_services listing o st) = services_dir st).
Proof.
  assert (Hcount : forall items,
             List.filter is_reload
               (trace (sync_existing_services (Some items) o st)) =
             List.filter is_reload (trace st)
             ++ (if needs_reload (fold_left sync_one items (emit (LogInfo MsgSyncing) st))
                 then [RunReload] else [])).
  { intros items. unfold sync_existing_services. rewrite reload_count. f_equal.
    rewrite (logs_have_no_reload _ _ (logs_only_sync_fold items _)).
    rewrite trace_emit, List.filter_app. cbn. apply app_nil_r. }
  split; [| split; [| split]].
  - destruct listing as [items|].
    + rewrite Hcount, List.length_app.
      destruct (needs_reload _); cbn [List.length]; lia.
    + unfold sync_existing_services. rewrite !trace_emit, !List.filter_app.
      cbn. rewrite !app_nil_r. lia.
  - intros items -> looped. unfold sync_existing_services. fold looped.
    destruct (reload_frame o looped) as [Hh Hd].
    split; [apply logs_only_sync_fold |].
    split; [exact Hh | split; [exact Hd | split]].
    + apply reload_clear.
    + apply reload_attempt_log.
  - intros items -> H. rewrite Hcount.
    replace (needs_reload (fold_left sync_one items (emit (LogInfo MsgSyncing) st)))
      with true; [reflexivity |].
    symmetry. destruct H as [Hn | Hex];
      [now apply sync_fold_keeps_flag | now apply sync_fold_sets_flag].
  - intros ->. unfold sync_existing_services.
    rewrite !trace_emit, !List.filter_app, <- app_assoc. cbn. rewrite !app_nil_r. auto.
Qed.

(** Three listed services, two of them host records and one a service
    record: one reload, at the very end, followed by its log line. *)
Lemma sync_reloads_once_witness :
  List.filter is_reload
    (trace (sync_existing_services (Some [shop; shop2; grafana]) (Completed 0 "")
              empty_state))
  = [RunReload]
  /\ exists m,
       trace (sync_existing_services (Some [shop; shop2; grafana]) (Completed 0 "")
                empty_state)
       = trace (fold_left sync_one [shop; shop2; grafana]
                  (emit (LogInfo MsgSyncing) empty_state))
         ++ [RunReload; m]
       /\ is_log m = true.
Proof.
  destruct (sync_reloads_once (Some [shop; shop2; grafana]) (Completed 0 "") empty_state)
    as (_ & Hplace & H & _).
  split.
  - apply (H [shop; shop2; grafana] eq_refl).
    right. constructor. reflexivity.
  - destruct (Hplace [shop; shop2; grafana] eq_refl) as (_ & _ & _ & _ & Hrun).
    apply Hrun. reflexivity.
Defined.

(** X11.  Every Added or Modified event for a qualifying LoadBalancer, or for
    a qualifying NodePort service whose first port has a node port, runs the
    reload command exactly once and leaves the flag clear exactly when the
    command returned 0: also when the event rewrites an artifact with the
    content it already had. *)
Theorem advertised_event_reloads (ev : string) (svc : Service) (o : reload_outcome)
    (st : State) :
  is_upsert ev = true -> advertisable svc = true ->
  List.filter is_reload (trace (handle_event st (mkEvent ev svc o)))
  = List.filter is_reload (trace st) ++ [RunReload]
  /\ needs_reload (handle_event st (mkEvent ev svc o))
     = negb match o with Completed rc _ => rc =? 0 | _ => false end.
Proof.
  intros Hev Hadv. unfold handle_event. cbn [ev_type ev_object ev_reload].
  rewrite reconcile_upsert by auto using advertisable_qualifies.
  rewrite reload_count, reload_flag_after, advertisable_sets_flag by exact Hadv.
  split; [| reflexivity].
  f_equal. apply logs_have_no_reload, logs_only_create.
Qed.

Lemma advertised_event_reloads_witness :
  List.filter is_reload
    (trace (handle_event (reconcile "ADDED" shop empty_state)
              (mkEvent "MODIFIED" shop TimeoutExpired)))
  = [RunReload]
  /\ hosts_file (handle_event (reconcile "ADDED" shop empty_state)
                   (mkEvent "MODIFIED" shop TimeoutExpired))
     = hosts_file (reconcile "ADDED" shop empty_state).
Proof.
  split; [| vm_compute; reflexivity].
  apply (advertised_event_reloads "MODIFIED" shop TimeoutExpired
           (reconcile "ADDED" shop empty_state) eq_refl eq_refl).
Defined.

(** ** What the startup sync never does *)

Section OnlyAdds.

Lemma only_adds_refl (st : State) : only_adds st st.
Proof. unfold only_adds. auto. Qed.

Lemma only_adds_trans (a b c : State) : only_adds a b -> only_adds b c -> only_adds a c.
Proof.
  unfold only_adds. intros (A1 & A2 & A3 & A4 & A5) (B1 & B2 & B3 & B4 & B5).
  repeat split; etrans; eassumption.
Qed.

Lemma only_adds_emit (e : effect) (st : State) : only_adds st (emit e st).
Proof. unfold only_adds. cbn. auto. Qed.

Lemma only_adds_create_host (svc : Service) (st : State) :
  only_adds st (create_host_record svc st).
Proof.
  unfold only_adds, create_host_record.
  destruct (status_ingress svc); [cbn; auto |].
  destruct (hostname_map st !! _) as [existing|]; [destruct (negb _) |];
    cbn; rewrite dom_insert_L; repeat split; try done; apply union_subseteq_r.
Qed.

Lemma only_adds_create_service (svc : Service) (st : State) :
  only_adds st (create_service_record svc st).
Proof.
  unfold only_adds, create_service_record.
  destruct (spec_ports svc) as [|[port|] rest]; [cbn; auto | | cbn; auto].
  destruct (port =? 0); [cbn; auto |].
  destruct (service_name_map st !! _) as [existing|]; [destruct (negb _) |];
    cbn; rewrite !dom_insert_L; repeat split; try done; apply union_subseteq_r.
Qed.

Lemma only_adds_reload (o : reload_outcome) (st : State) :
  only_adds st (reload_avahi_daemon o st).
Proof.
  unfold only_adds, reload_avahi_daemon. destruct (negb _); [auto |].
  destruct o as [rc stderr | |]; [destruct (rc =? 0) |..]; cbn; auto.
Qed.

Lemma only_adds_sync_fold (items : list Service) (st : State) :
  only_adds st (fold_left sync_one items st).
Proof.
  revert st. induction items as [|svc items IH]; intros st; [apply only_adds_refl |].
  cbn [fold_left]. eapply only_adds_trans; [| apply IH].
  unfold sync_one, create_avahi_advertisement.
  destruct (should_advertise svc); [| apply only_adds_refl].
  destruct (String.eqb _ _); [apply only_adds_create_host |].
  destruct (String.eqb _ _); [apply only_adds_create_service | apply only_adds_refl].
Qed.

End OnlyAdds.

(** X12.  The startup sync drops nothing of what the advertiser keeps beside
    the hosts file.  No advertisement file, no claim in either ownership map
    and no entry of the two bookkeeping sets that was there before the sync
    is missing after it, whatever the cluster lists.  The lines of the hosts
    file are not covered: writing a host record prunes the managed lines that
    contain its hostname. *)
Theorem sync_never_removes (listing : option (list Service)) (o : reload_outcome)
    (st : State) :
  dom (services_dir st) ⊆ dom (services_dir (sync_existing_services listing o st))
  /\ dom (hostname_map st) ⊆ dom (hostname_map (sync_existing_services listing o st))
  /\ dom (service_name_map st)
     ⊆ dom (service_name_map (sync_existing_services listing o st))
  /\ managed_files st ⊆ managed_files (sync_existing_services listing o st)
  /\ managed_hosts st ⊆ managed_hosts (sync_existing_services listing o st).
Proof.
  change (only_adds st (sync_existing_services listing o st)).
  unfold sync_existing_services. destruct listing as [items|].
  - eapply only_adds_trans; [| apply only_adds_reload].
    eapply only_adds_trans; [apply only_adds_emit | apply only_adds_sync_fold].
  - eapply only_adds_trans; apply only_adds_emit.
Qed.

(** ** Events that have nothing to do *)

(** X13.  With no reload pending, an event that finds nothing to remove
    leaves the state exactly as it was and runs nothing: a Deleted event, or
    an Added or Modified event for a snapshot that does not qualify, when
    nothing is stored under the name the snapshot computes; and any event
    whose type is none of Added, Modified and Deleted. *)
Theorem idle_event_is_noop (ev : string) (svc : Service) (o : reload_outcome) (st : State) :
  needs_reload st = false ->
  (ev = "DELETED" \/ (is_upsert ev = true /\ should_advertise svc = false) ->
   (spec_type svc = "LoadBalancer" -> host_lines_of (advertised_name svc) st = []) ->
   (spec_type svc = "NodePort" -> services_dir st !! record_filename svc = None) ->
   handle_event st (mkEvent ev svc o) = st)
  /\ (is_upsert ev = false -> ev <> "DELETED" -> handle_event st (mkEvent ev svc o) = st).
Proof.
  intros Hn. unfold handle_event. cbn [ev_type ev_object ev_reload]. split.
  - intros Hev Hlb Hnp.
    assert (E : reconcile ev svc st = remove_avahi_advertisement svc st).
    { destruct Hev as [-> | [Hup Hadv]]; [reflexivity | now apply reconcile_withdraw]. }
    rewrite E. unfold remove_avahi_advertisement.
    destruct (String.eqb_spec (spec_type svc) "LoadBalancer") as [Hty | _].
    + rewrite remove_host_record_noop by auto. now apply reload_clear.
    + destruct (String.eqb_spec (spec_type svc) "NodePort") as [Hty | _].
      * rewrite remove_service_record_noop by auto. now apply reload_clear.
      * now apply reload_clear.
  - intros Hup Hdel. unfold reconcile. unfold is_upsert in Hup. rewrite Hup.
    destruct (String.eqb_spec ev "DELETED"); [contradiction |]. now apply reload_clear.
Qed.

Lemma idle_event_is_noop_witness :
  handle_event empty_state (mkEvent "DELETED" shop (Completed 0 "")) = empty_state
  /\ handle_event empty_state (mkEvent "MODIFIED" shop_disabled RunFailed) = empty_state
  /\ handle_event empty_state (mkEvent "BOOKMARK" grafana TimeoutExpired) = empty_state.
Proof.
  split; [| split].
  - apply (proj1 (idle_event_is_noop "DELETED" shop (Completed 0 "") empty_state eq_refl));
      [now left | reflexivity | discriminate].
  - apply (proj1 (idle_event_is_noop "MODIFIED" shop_disabled RunFailed empty_state eq_refl));
      [right; split; reflexivity | reflexivity | discriminate].
  - apply (proj2 (idle_event_is_noop "BOOKMARK" grafana TimeoutExpired empty_state eq_refl));
      [reflexivity | discriminate].
Defined.

(** X14.  The two kinds treat a service that is not ready differently.  An
    Added or Modified event for a LoadBalancer without an ingress never
    reaches the creating operation: it does what a removal does.  One for a
    qualifying NodePort service whose first port has no node port reaches it
    and only logs a warning: artifacts, claims and the reload flag stay as
    they were, an earlier advertisement file included. *)
Theorem unready_service (ev : string) (svc : Service) (st : State) :
  is_upsert ev = true ->
  (spec_type svc = "LoadBalancer" -> status_ingress svc = [] ->
   reconcile ev svc st = remove_host_record svc st)
  /\ (spec_type svc = "NodePort" -> should_advertise svc = true ->
      node_port_of svc = None ->
      exists m, reconcile ev svc st = emit (LogWarning m) st).
Proof.
  intros Hev. split.
  - intros Hty Hing.
    assert (Hadv : should_advertise svc = false).
    { unfold should_advertise. rewrite Hty, Hing. reflexivity. }
    rewrite reconcile_withdraw by assumption. now apply remove_as_host.
  - intros Hty Hadv Hp. rewrite reconcile_upsert, create_as_service by assumption.
    now apply create_service_record_skipped.
Qed.

Lemma unready_service_witness :
  services_dir
    (reconcile "MODIFIED"
       (mkService "grafana" "tools" [("avahi.local/name", "dashboards")] "NodePort"
                  [None; Some 31000] [])
       (reconcile "ADDED" grafana empty_state))
  = services_dir (reconcile "ADDED" grafana empty_state).
Proof.
  destruct (unready_service "MODIFIED"
              (mkService "grafana" "tools" [("avahi.local/name", "dashboards")] "NodePort"
                         [None; Some 31000] [])
              (reconcile "ADDED" grafana empty_state) eq_refl) as [_ H].
  destruct (H eq_refl eq_refl eq_refl) as [m ->]. reflexivity.
Defined.

(** ** Creating and then deleting *)

Section RoundTrip.

Lemma release_own_claim (name key : string) (m : gmap string string) :
  m !! name = None -> release name key (<[name := key]> m) = m.
Proof.
  intros H. unfold release. rewrite lookup_insert_eq, String.eqb_refl.
  now apply delete_insert_id.
Qed.

Lemma service_round_trip (svc : Service) (st : State) (port : Z) :
  node_port_of svc = Some port ->
  services_dir st !! record_filename svc = None ->
  service_name_map st !! record_filename svc = None ->
  services_dir (remove_service_record svc (create_service_record svc st)) = services_dir st
  /\ service_name_map (remove_service_record svc (create_service_record svc st))
     = service_name_map st.
Proof.
  intros Hp Hfile Hclaim.
  destruct (create_service_record_fields svc st port Hp) as (D & _ & _ & _ & M & _).
  rewrite remove_service_record_changed by (rewrite D, lookup_insert_eq; discriminate).
  cbn. rewrite D, M. split; [now apply delete_insert_id | now apply release_own_claim].
Qed.

Lemma host_round_trip (svc : Service) (st : State) (content : string) :
  status_ingress svc <> [] ->
  hosts_file st = Some content -> terminated content = true ->
  one_line_entry svc = true ->
  host_lines_of (advertised_name svc) st = [] ->
  hostname_map st !! hostname_fqdn svc = None ->
  hosts_file (remove_host_record svc (create_host_record svc st)) = Some content
  /\ hostname_map (remove_host_record svc (create_host_record svc st)) = hostname_map st.
Proof.
  intros Hing Hf Hterm Hone Hnone Hclaim.
  assert (Hst : hosts_terminated st = true) by (unfold hosts_terminated; now rewrite Hf).
  pose proof (create_host_record_lines svc st Hing Hst Hone) as L.
  unfold host_lines_of in Hnone. rewrite (prune_id _ _ Hnone) in L.
  destruct (create_host_record_fields svc st Hing) as (_ & _ & _ & M & _ & _).
  destruct (remove_host_record_changed svc (create_host_record svc st))
    as (content' & Hf' & ->).
  { unfold host_lines_of. rewrite L, List.filter_app, Hnone. cbn [List.filter app].
    unfold entry_for. rewrite matches_host_entry. discriminate. }
  cbn. unfold hosts_lines at 1 in L. rewrite Hf' in L. rewrite L, M. split.
  - f_equal. unfold prune. rewrite List.filter_app.
    fold (prune (advertised_name svc) (hosts_lines st)).
    rewrite (prune_id _ _ Hnone). cbn [List.filter].
    unfold entry_for. rewrite matches_host_entry. cbn [negb].
    rewrite app_nil_r. unfold hosts_lines. rewrite Hf. apply writelines_readlines.
  - now apply release_own_claim.
Qed.

End RoundTrip.

(** X16.  Advertising a service and then deleting it restores what was there:
    when nothing was stored or claimed under the name the snapshot computes,
    an Added or Modified event followed by a Deleted event for the same
    snapshot leaves the hosts file byte for byte as it was, the services
    directory as it was, and both ownership maps as they were.  For the hosts
    file this is stated of a file that ends in a line feed and holds no
    carriage return, and of an entry without line break. *)
Theorem create_then_delete_restores (ev : string) (svc : Service) (st : State) :
  is_upsert ev = true -> advertisable svc = true ->
  (spec_type svc = "LoadBalancer" ->
   forall content,
     hosts_file st = Some content -> terminated content = true ->
     no_cr content = true ->
     plain_entry svc = true ->
     host_lines_of (advertised_name svc) st = [] ->
     hostname_map st !! hostname_fqdn svc = None ->
     hosts_file (reconcile "DELETED" svc (reconcile ev svc st)) = Some content
     /\ hostname_map (reconcile "DELETED" svc (reconcile ev svc st)) = hostname_map st)
  /\ (spec_type svc = "NodePort" ->
      services_dir st !! record_filename svc = None ->
      service_name_map st !! record_filename svc = None ->
      services_dir (reconcile "DELETED" svc (reconcile ev svc st)) = services_dir st
      /\ service_name_map (reconcile "DELETED" svc (reconcile ev svc st))
         = service_name_map st).
Proof.
  intros Hev Hadv. pose proof (advertisable_qualifies svc Hadv) as Hq.
  rewrite reconcile_deleted, reconcile_upsert by assumption. split; intros Hty.
  - intros content Hf Hterm _ Hplain Hnone Hclaim.
    rewrite remove_as_host, create_as_host by exact Hty.
    apply host_round_trip;
      auto using should_advertise_ingress, plain_entry_one_line.
  - intros Hfile Hclaim. rewrite remove_as_service, create_as_service by exact Hty.
    unfold advertisable in Hadv. rewrite Hq, Hty in Hadv. cbn in Hadv.
    destruct (node_port_of svc) as [port|] eqn:Hp; [| discriminate].
    now apply (service_round_trip svc st port).
Qed.

Lemma create_then_delete_restores_witness :
  hosts_file
    (reconcile "DELETED" shop
       (reconcile "ADDED" shop
          (fresh_state (Some (printer_line +:+ nl)) ∅)))
  = Some (printer_line +:+ nl)
  /\ services_dir
       (reconcile "DELETED" grafana (reconcile "MODIFIED" grafana empty_state))
     = services_dir empty_state.
Proof.
  split.
  - destruct (create_then_delete_restores "ADDED" shop
                (fresh_state (Some (printer_line +:+ nl)) ∅) eq_refl eq_refl) as [H _].
    apply (H eq_refl (printer_line +:+ nl)); reflexivity.
  - destruct (create_then_delete_restores "MODIFIED" grafana empty_state eq_refl eq_refl)
      as [_ H].
    apply H; reflexivity.
Defined.

(** ** Loading the managed hosts *)

Section Loading.

Lemma load_managed_hosts_fold (st : State) :
  _load_managed_hosts st =
  match hosts_file st with
  | None => st
  | Some content => fold_left load_line (readlines content) st
  end.
Proof. reflexivity. Qed.

Lemma rev_app_rev_app (a b c : string) :
  String.rev_app (String.rev_app a b) c = String.rev_app b (a +:+ c).
Proof.
  revert b c. induction a as [|x a IH]; intros b c; [reflexivity |].
  cbn [String.rev_app]. rewrite IH. reflexivity.
Qed.

Lemma rev_rev (a : string) : String.rev (String.rev a) = a.
Proof. unfold String.rev. rewrite rev_app_rev_app. cbn. apply append_empty_r. Qed.

Lemma split_go_word (a w rest : string) :
  string_forall (fun c => negb (is_space c)) a = true ->
  split_go (Some w) (a +:+ String " " rest)
  = String.rev (String.rev_app a w) :: split_go None rest.
Proof.
  revert w. induction a as [|c a IH]; intros w H; [reflexivity |].
  cbn [string_forall] in H. apply andb_true_iff in H as [Hc Ha].
  apply negb_true_iff in Hc.
  rewrite append_cons. cbn [split_go]. rewrite Hc. cbn [default].
  now rewrite IH.
Qed.

Lemma split_go_first (a rest : string) :
  is_token a = true -> split_go None (a +:+ String " " rest) = a :: split_go None rest.
Proof.
  unfold is_token. destruct a as [|c a]; [discriminate |]. cbn [is_empty_string negb andb].
  intros H. cbn [string_forall] in H. apply andb_true_iff in H as [Hc Ha].
  apply negb_true_iff in Hc.
  rewrite append_cons. cbn [split_go]. rewrite Hc. cbn [default].
  rewrite split_go_word by exact Ha. f_equal.
  change (String.rev_app a (String c "")) with (String.rev (String c a)).
  apply rev_rev.
Qed.

Lemma split_go_some (w s : string) : exists t ts, split_go (Some w) s = t :: ts.
Proof.
  revert w. induction s as [|c s IH]; intros w; [cbn; eauto |].
  cbn [split_go]. destruct (is_space c); [eauto | apply IH].
Qed.

Lemma host_entry_tokens (ip hostname key : string) :
  host_entry ip hostname key =
  ip +:+ String " " ((hostname +:+ ".local") +:+
         String " " (String "#" (" Managed by k8s-avahi-advertiser" +:+ " (" +:+ key
                                 +:+ ")" +:+ nl))).
Proof.
  unfold host_entry, MANAGED_HOSTS_MARKER.
  rewrite (append_assoc hostname ".local"). reflexivity.
Qed.

Lemma split_go_hash (r : string) : split_go None (String "#" r) = split_go (Some "#") r.
Proof. reflexivity. Qed.

Lemma split_host_entry (ip hostname key : string) :
  is_token ip = true -> is_token (hostname +:+ ".local") = true ->
  exists t ts, split (host_entry ip hostname key) = ip :: (hostname +:+ ".local") :: t :: ts.
Proof.
  intros Hip Hfq. unfold split. rewrite host_entry_tokens.
  rewrite split_go_first by exact Hip.
  rewrite split_go_first by exact Hfq.
  rewrite split_go_hash.
  destruct (split_go_some "#"
              (" Managed by k8s-avahi-advertiser" +:+ " (" +:+ key +:+ ")" +:+ nl))
    as (t & ts & E).
  rewrite E. eauto.
Qed.

Lemma load_line_frame (st : State) (line : string) :
  hosts_file (load_line st line) = hosts_file st
  /\ services_dir (load_line st line) = services_dir st
  /\ managed_files (load_line st line) = managed_files st
  /\ needs_reload (load_line st line) = needs_reload st
  /\ hostname_map (load_line st line) = hostname_map st
  /\ service_name_map (load_line st line) = service_name_map st
  /\ trace (load_line st line) = trace st
  /\ managed_hosts st ⊆ managed_hosts (load_line st line).
Proof.
  unfold load_line. destruct (str_in _ line); [| repeat split; done].
  destruct (split line) as [|a [|host [|b rest]]]; cbn; repeat split; try done.
  apply union_subseteq_r.
Qed.

Lemma load_fold_frame (lines : list string) (st : State) :
  hosts_file (fold_left load_line lines st) = hosts_file st
  /\ services_dir (fold_left load_line lines st) = services_dir st
  /\ managed_files (fold_left load_line lines st) = managed_files st
  /\ needs_reload (fold_left load_line lines st) = needs_reload st
  /\ hostname_map (fold_left load_line lines st) = hostname_map st
  /\ service_name_map (fold_left load_line lines st) = service_name_map st
  /\ trace (fold_left load_line lines st) = trace st
  /\ managed_hosts st ⊆ managed_hosts (fold_left load_line lines st).
Proof.
  revert st. induction lines as [|line lines IH]; intros st; [repeat split; done |].
  cbn [fold_left].
  destruct (IH (load_line st line)) as (A1 & A2 & A3 & A4 & A5 & A6 & A7 & A8).
  destruct (load_line_frame st line) as (B1 & B2 & B3 & B4 & B5 & B6 & B7 & B8).
  repeat split; try congruence. etrans; eassumption.
Qed.

Lemma load_fold_in (lines : list string) (st : State) (line a host b : string)
    (rest : list string) :
  In line lines -> str_in MANAGED_HOSTS_MARKER line = true ->
  split line = a :: host :: b :: rest ->
  host ∈ managed_hosts (fold_left load_line lines st).
Proof.
  intros Hin Hm Hs. revert st. induction lines as [|l lines IH]; intros st; [elim Hin |].
  cbn [fold_left]. destruct Hin as [-> | Hin]; [| now apply IH].
  apply (proj2 (proj2 (proj2 (proj2 (proj2 (proj2 (proj2
           (load_fold_frame lines (load_line st line))))))))).
  unfold load_line. rewrite Hm, Hs. cbn. apply elem_of_union_l, elem_of_singleton_2.
  reflexivity.
Qed.

End Loading.

(** X17.  Loading the managed hosts changes nothing but the set of managed
    hosts, which only grows; and it recovers what a host record wrote: after
    [create_host_record] has written its entry, a newly constructed advertiser
    that loads the same file has the service's fqdn in its set, as long as the
    address and the fqdn are single tokens of seven-bit text, the entry is one
    line and the file ended in a line feed. *)
Theorem load_recovers_created_host (svc : Service) (st : State) (dir : gmap string string) :
  (hosts_file (_load_managed_hosts st) = hosts_file st
   /\ services_dir (_load_managed_hosts st) = services_dir st
   /\ managed_files (_load_managed_hosts st) = managed_files st
   /\ needs_reload (_load_managed_hosts st) = needs_reload st
   /\ hostname_map (_load_managed_hosts st) = hostname_map st
   /\ service_name_map (_load_managed_hosts st) = service_name_map st
   /\ trace (_load_managed_hosts st) = trace st
   /\ managed_hosts st ⊆ managed_hosts (_load_managed_hosts st))
  /\ (status_ingress svc <> [] -> hosts_terminated st = true ->
      one_line_entry svc = true ->
      is_token (first_ip svc) = true -> is_token (hostname_fqdn svc) = true ->
      seven_bit (first_ip svc) = true -> seven_bit (hostname_fqdn svc) = true ->
      hostname_fqdn svc
      ∈ managed_hosts
          (_load_managed_hosts (fresh_state (hosts_file (create_host_record svc st)) dir))).
Proof.
  split.
  - rewrite load_managed_hosts_fold. destruct (hosts_file st) as [content|] eqn:Hf.
    + rewrite <- Hf. apply load_fold_frame.
    + rewrite Hf. repeat split; done.
  - intros Hing Hterm Hone Hip Hfq _ _.
    pose proof (create_host_record_lines svc st Hing Hterm Hone) as L.
    destruct (create_host_record_fields svc st Hing) as (F & _).
    rewrite load_managed_hosts_fold. cbn [fresh_state hosts_file].
    unfold hosts_lines at 1 in L. rewrite F in *.
    destruct (split_host_entry (first_ip svc) (advertised_name svc) (service_key svc)
                Hip Hfq) as (t & ts & Hs).
    apply (load_fold_in _ _ (entry_for svc) (first_ip svc) _ t ts).
    + rewrite L. apply List.in_or_app. right. now left.
    + pose proof (matches_host_entry (first_ip svc) (advertised_name svc)
                    (service_key svc)) as Hm.
      now apply andb_true_iff in Hm as [Hm _].
    + exact Hs.
Qed.

Lemma load_recovers_created_host_witness :
  "shop.local"
  ∈ managed_hosts
      (_load_managed_hosts
         (fresh_state (hosts_file (create_host_record shop empty_state)) ∅)).
Proof.
  apply (proj2 (load_recovers_created_host shop empty_state ∅));
    [discriminate | reflexivity..].
Defined.

(** ** Construction *)

Section Construction.

Lemma load_managed_hosts_frame (st : State) :
  hosts_file (_load_managed_hosts st) = hosts_file st
  /\ services_dir (_load_managed_hosts st) = services_dir st
  /\ managed_files (_load_managed_hosts st) = managed_files st
  /\ needs_reload (_load_managed_hosts st) = needs_reload st
  /\ hostname_map (_load_managed_hosts st) = hostname_map st
  /\ service_name_map (_load_managed_hosts st) = service_name_map st
  /\ trace (_load_managed_hosts st) = trace st.
Proof.
  rewrite load_managed_hosts_fold. destruct (hosts_file st) as [content|] eqn:Hf.
  - rewrite <- Hf.
    destruct (load_fold_frame (readlines content) st) as (A1 & A2 & A3 & A4 & A5 & A6 & A7 & _).
    auto 10.
  - rewrite Hf. auto 10.
Qed.

Lemma started_state (env : StartupEnv) (log : list startup_log) (st : State) :
  __init__ env = Started log st ->
  exists dir, env_services env = Some dir
              /\ st = _load_managed_hosts
                        (fresh_state (Some (default "" (env_hosts env))) dir).
Proof.
  unfold __init__. destruct env as [ic kc hosts touch hw services sw]. cbn.
  destruct ic, kc, hosts as [content|], touch, hw, services as [dir|], sw; cbn;
    intros H; try discriminate H; injection H as _ <-; eauto.
Qed.

Lemma no_conflict_create_host (svc : Service) (st : State) :
  hostname_map st = ∅ ->
  List.filter is_conflict (trace (create_host_record svc st))
  = List.filter is_conflict (trace st).
Proof.
  intros Hm. destruct (status_ingress svc) as [|first rest] eqn:Hing.
  - rewrite create_host_record_no_ip, trace_emit, List.filter_app by exact Hing.
    apply app_nil_r.
  - destruct (create_host_record_fields svc st) as (_ & _ & _ & _ & _ & T); [congruence |].
    rewrite T. unfold host_conflicts. rewrite Hm, lookup_empty.
    cbn [conflict_of app]. rewrite List.filter_app. apply app_nil_r.
Qed.

Lemma no_conflict_create_service (svc : Service) (st : State) :
  service_name_map st = ∅ ->
  List.filter is_conflict (trace (create_service_record svc st))
  = List.filter is_conflict (trace st).
Proof.
  intros Hm. destruct (node_port_of svc) as [port|] eqn:Hp.
  - destruct (create_service_record_fields svc st port Hp) as (_ & _ & _ & _ & _ & T).
    rewrite T. unfold service_conflicts. rewrite Hm, lookup_empty.
    cbn [conflict_of app]. rewrite List.filter_app. apply app_nil_r.
  - destruct (create_service_record_skipped svc st Hp) as [m ->].
    rewrite trace_emit, List.filter_app. apply app_nil_r.
Qed.

Lemma no_conflict_remove (svc : Service) (st : State) :
  List.filter is_conflict (trace (remove_avahi_advertisement svc st))
  = List.filter is_conflict (trace st).
Proof.
  unfold remove_avahi_advertisement, remove_host_record, remove_service_record.
  destruct (String.eqb _ _).
  - destruct (hosts_file st); [| reflexivity].
    destruct (_ <? _)%nat; [| reflexivity].
    cbn. rewrite List.filter_app. apply app_nil_r.
  - destruct (String.eqb _ _); [| reflexivity].
    destruct (services_dir st !! _); [| reflexivity].
    cbn. rewrite List.filter_app. apply app_nil_r.
Qed.

Lemma no_conflict_reconcile (ev : string) (svc : Service) (st : State) :
  hostname_map st = ∅ -> service_name_map st = ∅ ->
  List.filter is_conflict (trace (reconcile ev svc st))
  = List.filter is_conflict (trace st).
Proof.
  intros Hh Hs. unfold reconcile, create_avahi_advertisement.
  destruct (string_in_list ev _).
  - destruct (should_advertise svc); [| apply no_conflict_remove].
    destruct (String.eqb _ _); [now apply no_conflict_create_host |].
    destruct (String.eqb _ _); [now apply no_conflict_create_service | reflexivity].
  - destruct (String.eqb ev _); [apply no_conflict_remove | reflexivity].
Qed.

End Construction.

(** X18.  The constructor returns an advertiser exactly when one of the two
    ways of loading the cluster configuration succeeds, the hosts file exists
    or can be created, the hosts file is writable, and the services directory
    exists and is writable; otherwise it leaves with exit code 1, its last log
    line being an error.  A missing hosts file is created empty, a missing
    services directory is not created.  The advertiser it returns holds the
    hosts file and the directory as it found them, no claim, no managed file,
    a clear reload flag and an empty trace. *)
Theorem startup_outcome (env : StartupEnv) :
  ((exists log st, __init__ env = Started log st) <->
   (env_incluster env = true \/ env_kubeconfig env = true)
   /\ (env_hosts env <> None \/ env_touch env = true)
   /\ env_hosts_writable env = true
   /\ env_services env <> None
   /\ env_services_writable env = true)
  /\ (forall log st,
         __init__ env = Started log st ->
         hosts_file st = Some (default "" (env_hosts env))
         /\ Some (services_dir st) = env_services env
         /\ hostname_map st = ∅ /\ service_name_map st = ∅
         /\ managed_files st = ∅ /\ needs_reload st = false /\ trace st = [])
  /\ (forall log code,
         __init__ env = Exited log code ->
         code = 1 /\ exists m, List.last log (StartInfo MsgInCluster) = StartError m).
Proof.
  split; [| split].
  - unfold __init__. destruct env as [ic kc hosts touch hw services sw]. cbn.
    destruct ic, kc, hosts as [content|], touch, hw, services as [dir|], sw; cbn;
      (split;
       [intros (log & st & H); try discriminate H;
        repeat split; auto; discriminate
       | intros (H1 & H2 & H3 & H4 & H5);
         try discriminate; try (destruct H1; discriminate);
         try (destruct H2 as [H2 | H2]; [now elim H2 | discriminate]);
         try (now elim H4); eauto]).
  - intros log st H. destruct (started_state env log st H) as (dir & Hdir & ->).
    destruct (load_managed_hosts_frame
                (fresh_state (Some (default "" (env_hosts env))) dir))
      as (A1 & A2 & A3 & A4 & A5 & A6 & A7).
    rewrite A1, A2, A3, A4, A5, A6, A7, Hdir. cbn. auto 10.
  - unfold __init__. destruct env as [ic kc hosts touch hw services sw]. cbn.
    destruct ic, kc, hosts as [content|], touch, hw, services as [dir|], sw; cbn;
      intros log code H; try discriminate H; injection H as <- <-; cbn; eauto.
Qed.

Lemma startup_outcome_witness :
  (exists log st, __init__ restart_env = Started log st)
  /\ (forall log code,
         __init__ (mkStartupEnv true false (Some "") false true None true) = Exited log code ->
         code = 1).
Proof.
  split.
  - apply (proj1 (startup_outcome restart_env)). cbn.
    repeat split; auto; discriminate.
  - intros log code H.
    apply (proj2 (proj2 (startup_outcome
                           (mkStartupEnv true false (Some "") false true None true)))
             log code H).
Defined.

(** X19.  The ownership maps are not rebuilt from the artifacts.  Whatever the
    hosts file and the services directory hold when the advertiser is
    constructed, the first event it reconciles logs no conflict. *)
Theorem no_conflict_after_start (env : StartupEnv) (log : list startup_log) (st : State)
    (ev : string) (svc : Service) :
  __init__ env = Started log st ->
  List.filter is_conflict (trace (reconcile ev svc st)) = [].
Proof.
  intros H. destruct (started_state env log st H) as (dir & Hdir & ->).
  destruct (load_managed_hosts_frame
              (fresh_state (Some (default "" (env_hosts env))) dir))
    as (_ & _ & _ & _ & A5 & A6 & A7).
  rewrite no_conflict_reconcile by (rewrite ?A5, ?A6; reflexivity).
  rewrite A7. reflexivity.
Qed.

(** A start over a hosts file that holds the line of [web/shop]: the first
    event, for [web/shop2] under the same hostname, takes the line over and no
    conflict is logged. *)
Lemma no_conflict_after_start_witness :
  exists log st,
    __init__ restart_env = Started log st
    /\ hosts_lines st = [shop_line]
    /\ List.filter is_conflict (trace (reconcile "ADDED" shop2_as_shop st)) = []
    /\ hosts_lines (reconcile "ADDED" shop2_as_shop st)
       = ["10.0.42.51 shop.local # Managed by k8s-avahi-advertiser (web/shop2)" +:+ nl].
Proof.
  exists [StartInfo MsgInCluster; StartInfo MsgHostsPath; StartInfo MsgServicesPath].
  exists (_load_managed_hosts (fresh_state (Some shop_line) ∅)).
  split; [reflexivity | split; [vm_compute; reflexivity | split]].
  - apply (no_conflict_after_start restart_env
             [StartInfo MsgInCluster; StartInfo MsgHostsPath; StartInfo MsgServicesPath]
             (_load_managed_hosts (fresh_state (Some shop_line) ∅))
             "ADDED" shop2_as_shop).
    reflexivity.
  - vm_compute. reflexivity.
Defined.
